(** * Route resolution service and JWT secret lookup of the API gateway

    Shallow embedding of
      - internal/app/route/service.go  (package route, type Service)
      - pkg/security/jwt_helper.go     (package security, GetJWTSecret)

    The service orchestrates two ports, a cache and a route repository.
    Both are Go interfaces whose implementations live outside these two
    files, so each is a record of operations over an arbitrary world
    state [W].  Every call the service issues on a port, and every call of
    the path matcher, is recorded together with its answer in a trace of
    events; the trace plays the part of the call counters of a mock.

    Log and span emission (zap, OpenTelemetry) never feeds back into the
    control flow and is left out. *)

From Stdlib Require Import String Ascii List ZArith Lia Bool.
From stdpp Require Import base option list gmap strings.
Import ListNotations.

Local Open Scope Z_scope.
Local Open Scope list_scope.

(** ** Go built-ins used by both packages *)

(** Modelled from the spec: Go's [error] values.  The sentinel
    [repository.ErrRouteNotFound] is declared outside the two files; every
    other error value is told apart by its message. *)
Inductive error : Type :=
| ErrRouteNotFound
| errorString (msg : string).

#[global] Instance error_eq_dec : EqDecision error.
Proof. solve_decision. Defined.

(** A Go pair [(value, err)] of which exactly one side is meaningful. *)
Inductive result (A : Type) : Type :=
| Ok (a : A)
| Error (e : error).
Arguments Ok {A} a.
Arguments Error {A} e.

(** [time.Duration] counts nanoseconds. *)
Module time.
Definition Duration := Z.
Definition Nanosecond : Duration := 1.
Definition Second : Duration := 1000000000 * Nanosecond.
Definition Minute : Duration := 60 * Second.
End time.

(** ** package model *)
Module model.

(** Modelled from the spec: the [Route] struct (section 3 of the
    specification); the service reads [Path], [ServiceURL], [IsActive]
    and [Methods]. *)
Record Route : Type := {
  Path : string;
  ServiceURL : string;
  Methods : list string;
  IsActive : bool;
  CallCount : Z;
  TotalResponseTime : Z
}.

#[global] Instance Route_eq_dec : EqDecision Route.
Proof. solve_decision. Defined.

End model.
Import model.

(** ** package cache *)
Module cache.

(** What [Cache.Get(ctx, key, &out)] reports: [(true, nil)] with the
    decoded value stored through [out], [(false, nil)], or a non-nil
    error.  Outside a hit [out] keeps the zero value it had. *)
Inductive GetResult (A : Type) : Type :=
| Hit (a : A)
| Miss
| GetErr (e : error).
Arguments Hit {A} a.
Arguments Miss {A}.
Arguments GetErr {A} e.

(** The two kinds of value the service stores ([interface{}] in Go). *)
Inductive Value : Type :=
| VRoute (r : Route)
| VRoutes (rs : list Route).

(** The [Cache] interface.  [Get] appears once per type of [out] the
    service passes: [**model.Route] and [*[]*model.Route]. *)
Record Cache (W : Type) : Type := {
  Get_route : string -> W -> GetResult Route * W;
  Get_routes : string -> W -> GetResult (list Route) * W;
  Set_ : string -> Value -> time.Duration -> W -> option error * W;
  Delete : string -> W -> option error * W
}.
Arguments Get_route {W} _ _ _.
Arguments Get_routes {W} _ _ _.
Arguments Set_ {W} _ _ _ _ _.
Arguments Delete {W} _ _ _.

End cache.
Import cache.

(** ** package repository *)
Module repository.

(** The [RouteRepository] interface. *)
Record RouteRepository (W : Type) : Type := {
  GetRoutes : W -> result (list Route) * W;
  AddRoute : Route -> W -> option error * W;
  UpdateRoute : Route -> W -> option error * W;
  DeleteRoute : string -> W -> option error * W;
  UpdateMetrics : string -> Z -> Z -> W -> option error * W
}.
Arguments GetRoutes {W} _ _.
Arguments AddRoute {W} _ _ _.
Arguments UpdateRoute {W} _ _ _.
Arguments DeleteRoute {W} _ _ _.
Arguments UpdateMetrics {W} _ _ _ _ _.

End repository.

(** ** Events and the monad of service operations *)

(** One event per call issued by the service, with the answer it got. *)
Inductive Event : Type :=
| EvCacheGet (key : string) (res : GetResult Value)
| EvCacheSet (key : string) (v : Value) (ttl : time.Duration) (res : option error)
| EvCacheDelete (key : string) (res : option error)
| EvRepoGetRoutes (res : result (list Route))
| EvRepoAddRoute (r : Route) (res : option error)
| EvRepoUpdateRoute (r : Route) (res : option error)
| EvRepoDeleteRoute (path : string) (res : option error)
| EvRepoUpdateMetrics (path : string) (callCount totalResponseTime : Z) (res : option error)
| EvMatch (pattern path : string) (res : bool).

Definition is_repo_call (ev : Event) : bool :=
  match ev with
  | EvRepoGetRoutes _ | EvRepoAddRoute _ _ | EvRepoUpdateRoute _ _
  | EvRepoDeleteRoute _ _ | EvRepoUpdateMetrics _ _ _ _ => true
  | _ => false
  end.

Definition is_match_call (ev : Event) : bool :=
  match ev with EvMatch _ _ _ => true | _ => false end.

Definition is_cache_write (ev : Event) : bool :=
  match ev with EvCacheSet _ _ _ _ => true | _ => false end.

(** A write of a single route, as opposed to the write of the list. *)
Definition is_individual_write (ev : Event) : bool :=
  match ev with EvCacheSet _ (VRoute _) _ _ => true | _ => false end.

(** The error a repository call answered with, if any. *)
Definition repo_error (ev : Event) : option error :=
  match ev with
  | EvRepoGetRoutes (Error e) => Some e
  | EvRepoAddRoute _ res | EvRepoUpdateRoute _ res
  | EvRepoDeleteRoute _ res | EvRepoUpdateMetrics _ _ _ res => res
  | _ => None
  end.

(** ** Observations on traces *)

(** Number of events of a kind in a trace: the call count of a mock. *)
Definition count_calls (kind : Event -> bool) (t : list Event) : nat :=
  length (List.filter kind t).

(** The repository answered a call of the trace with the error [e]. *)
Definition from_repository (e : error) (t : list Event) : Prop :=
  exists ev, In ev t /\ repo_error ev = Some e.

(** The matcher invocations of a scan over [rs], in order. *)
Definition match_events (MatchRoutePath : string -> string -> bool)
  (path : string) (rs : list Route) : list Event :=
  map (fun r => EvMatch r.(Path) path (MatchRoutePath r.(Path) path)) rs.

Definition no_match (MatchRoutePath : string -> string -> bool)
  (path : string) (rs : list Route) : Prop :=
  Forall (fun r => MatchRoutePath r.(Path) path = false) rs.

Definition routeKey (path : string) : string := "route:" +:+ path.

Definition fiveMinutes : time.Duration := 300000000000.

(** Events of the list-loading step: reads and writes of ["routes"] and
    the repository listing. *)
Definition is_list_event (ev : Event) : bool :=
  match ev with
  | EvCacheGet key _ => String.eqb key "routes"
  | EvRepoGetRoutes _ => true
  | EvCacheSet key (VRoutes _) ttl _ => String.eqb key "routes" && Z.eqb ttl fiveMinutes
  | _ => false
  end.

(** A computation reads and updates the world and emits events. *)
Definition M (W A : Type) : Type := W -> A * W * list Event.

Definition ret {W A} (a : A) : M W A := fun w => (a, w, []).

Definition bind {W A B} (m : M W A) (k : A -> M W B) : M W B :=
  fun w =>
    let '(a, w1, t1) := m w in
    let '(b, w2, t2) := k a w1 in
    (b, w2, t1 ++ t2).

Declare Scope svc_scope.
Delimit Scope svc_scope with svc.
Notation "x <- c ;; k" := (bind c (fun x => k))
  (at level 100, c at next level, right associativity) : svc_scope.
Notation "c ;;; k" := (bind c (fun _ => k))
  (at level 100, right associativity) : svc_scope.

(** Lift a port operation, recording the call and its answer. *)
Definition call {W A} (op : W -> A * W) (ev : A -> Event) : M W A :=
  fun w => let '(a, w1) := op w in (a, w1, [ev a]).

Definition result_of {W A} (m : W -> A * W * list Event) (w : W) : A := (m w).1.1.
Definition world_of {W A} (m : W -> A * W * list Event) (w : W) : W := (m w).1.2.
Definition trace_of {W A} (m : W -> A * W * list Event) (w : W) : list Event := (m w).2.

Definition GetResult_map {A B} (f : A -> B) (g : GetResult A) : GetResult B :=
  match g with
  | Hit a => Hit (f a)
  | Miss => Miss
  | GetErr e => GetErr e
  end.

(** ** package route *)
Module route.

(** [type Service struct { repo; cache; logger }] and [NewService]. *)
Record Service (W : Type) : Type := NewService {
  repo : repository.RouteRepository W;
  cache : Cache W
}.
Arguments NewService {W} _ _.
Arguments repo {W} _.
Arguments cache {W} _.

Section Service.

Context {W : Type}.

(** [model.MatchRoutePath], the path matcher, is declared outside the two
    files: a pure predicate on (registered pattern, request path), taken
    as a parameter. *)
Variable MatchRoutePath : string -> string -> bool.

Variable s : Service W.

Local Open Scope svc_scope.

(** The port calls, as the service issues them. *)
Definition cacheGetRoute (key : string) : M W (GetResult Route) :=
  call (Get_route s.(cache) key) (fun g => EvCacheGet key (GetResult_map VRoute g)).
Definition cacheGetRoutes (key : string) : M W (GetResult (list Route)) :=
  call (Get_routes s.(cache) key) (fun g => EvCacheGet key (GetResult_map VRoutes g)).
Definition cacheSet (key : string) (v : Value) (ttl : time.Duration) : M W (option error) :=
  call (Set_ s.(cache) key v ttl) (EvCacheSet key v ttl).
Definition cacheDelete (key : string) : M W (option error) :=
  call (Delete s.(cache) key) (EvCacheDelete key).
Definition repoGetRoutes : M W (result (list Route)) :=
  call (repository.GetRoutes s.(repo)) EvRepoGetRoutes.
Definition repoAddRoute (r : Route) : M W (option error) :=
  call (repository.AddRoute s.(repo) r) (EvRepoAddRoute r).
Definition repoUpdateRoute (r : Route) : M W (option error) :=
  call (repository.UpdateRoute s.(repo) r) (EvRepoUpdateRoute r).
Definition repoDeleteRoute (path : string) : M W (option error) :=
  call (repository.DeleteRoute s.(repo) path) (EvRepoDeleteRoute path).
Definition repoUpdateMetrics (path : string) (cc trt : Z) : M W (option error) :=
  call (repository.UpdateMetrics s.(repo) path cc trt) (EvRepoUpdateMetrics path cc trt).
Definition matchRoutePath (pattern path : string) : M W bool :=
  fun w => let b := MatchRoutePath pattern path in (b, w, [EvMatch pattern path b]).

(** [func (s *Service) GetRoutes(ctx)], service.go lines 32-59. *)
Definition GetRoutes : M W (result (list Route)) :=
  let cacheKey := "routes"%string in
  g <- cacheGetRoutes cacheKey ;;
  match g with
  | GetErr err => ret (Error err)
  | Hit routes => ret (Ok routes)
  | Miss =>
      rr <- repoGetRoutes ;;
      match rr with
      | Error err => ret (Error err)
      | Ok routes =>
          cacheSet cacheKey (VRoutes routes) (5 * time.Minute) ;;;
          ret (Ok routes)
      end
  end.

(** Lines 108-137 of [GetRouteByPath]: the value of the local [routes]
    when the loop is reached, or the error the function returns early.
    After a failed read of the list [routes] is still nil. *)
Definition loadRoutes : M W (result (list Route)) :=
  let cacheKey := "routes"%string in
  g <- cacheGetRoutes cacheKey ;;
  match g with
  | GetErr _ => ret (Ok [])
  | Hit routes => ret (Ok routes)
  | Miss =>
      rr <- repoGetRoutes ;;
      match rr with
      | Error err => ret (Error err)
      | Ok routes =>
          cacheSet cacheKey (VRoutes routes) (5 * time.Minute) ;;;
          ret (Ok routes)
      end
  end.

(** Lines 143-173 of [GetRouteByPath]: the loop over [routes] and the
    not-found exit behind it. *)
Fixpoint scanRoutes (routes : list Route) (path : string) : M W (result Route) :=
  match routes with
  | [] => ret (Error ErrRouteNotFound)
  | r :: rest =>
      b <- matchRoutePath r.(Path) path ;;
      if b then
        let routeCacheKey := ("route:" +:+ path)%string in
        cacheSet routeCacheKey (VRoute r) (5 * time.Minute) ;;;
        ret (Ok r)
      else scanRoutes rest path
  end.

(** [func (s *Service) GetRouteByPath(ctx, path)], lines 61-174. *)
Definition GetRouteByPath (path : string) : M W (result Route) :=
  let routeCacheKey := ("route:" +:+ path)%string in
  g <- cacheGetRoute routeCacheKey ;;
  match g with
  | Hit route => ret (Ok route)
  | _ =>
      lr <- loadRoutes ;;
      match lr with
      | Error err => ret (Error err)
      | Ok routes => scanRoutes routes path
      end
  end.

(** Lines 191-198 of [ClearCache]: the sweep over the registered paths. *)
Fixpoint clearRoutes (routes : list Route) : M W unit :=
  match routes with
  | [] => ret tt
  | route :: rest =>
      let cacheKey := ("route:" +:+ route.(Path))%string in
      cacheDelete cacheKey ;;;
      clearRoutes rest
  end.

(** [func (s *Service) ClearCache(ctx)], lines 177-202. *)
Definition ClearCache : M W (option error) :=
  d <- cacheDelete "routes" ;;
  match d with
  | Some err => ret (Some err)
  | None =>
      rr <- repoGetRoutes ;;
      match rr with
      | Error err => ret (Some err)
      | Ok routes => clearRoutes routes ;;; ret None
      end
  end.

(** [func (s *Service) AddRoute(ctx, route)], lines 205-216. *)
Definition AddRoute (route : Route) : M W (option error) :=
  a <- repoAddRoute route ;;
  match a with
  | Some err => ret (Some err)
  | None => cacheDelete "routes" ;;; ret None
  end.

(** [func (s *Service) UpdateRoute(ctx, route)], lines 219-235. *)
Definition UpdateRoute (route : Route) : M W (option error) :=
  u <- repoUpdateRoute route ;;
  match u with
  | Some err => ret (Some err)
  | None =>
      let cacheKey := ("route:" +:+ route.(Path))%string in
      cacheDelete cacheKey ;;;
      cacheDelete "routes" ;;;
      ret None
  end.

(** [func (s *Service) DeleteRoute(ctx, path)], lines 238-254. *)
Definition DeleteRoute (path : string) : M W (option error) :=
  d <- repoDeleteRoute path ;;
  match d with
  | Some err => ret (Some err)
  | None =>
      let cacheKey := ("route:" +:+ path)%string in
      cacheDelete cacheKey ;;;
      cacheDelete "routes" ;;;
      ret None
  end.

(** [func (s *Service) UpdateMetrics(...)], lines 257-259. *)
Definition UpdateMetrics (path : string) (callCount totalResponseTime : Z)
  : M W (option error) :=
  repoUpdateMetrics path callCount totalResponseTime.

(** Lines 268-274 of [IsMethodAllowed]: the loop over [route.Methods]. *)
Fixpoint methodListed (methods : list string) (method : string) : bool :=
  match methods with
  | [] => false
  | m :: rest => if String.eqb m method then true else methodListed rest method
  end.

(** [func (s *Service) IsMethodAllowed(ctx, path, method)], lines 262-275. *)
Definition IsMethodAllowed (path method : string) : M W (bool * option error) :=
  r <- GetRouteByPath path ;;
  match r with
  | Error err => ret (false, Some err)
  | Ok route => ret (methodListed route.(Methods) method, None)
  end.

End Service.
End route.

(** ** package config and package security *)
Module config.

(** Modelled from the spec: the part of the configuration that
    [GetJWTSecret] reads, [cfg.Auth.JWTSecret]. *)
Record AuthConfig : Type := { JWTSecret : string }.
Record Config : Type := { Auth : AuthConfig }.

End config.

Module security.

(** What the function reads from its host: the process environment and
    [config.LoadConfig], whose body is outside the two files. *)
Record Host : Type := {
  environ : gmap string string;
  LoadConfig : string -> result config.Config
}.

(** [os.Getenv]: the value of the variable, empty when it is not set. *)
Definition Getenv (h : Host) (key : string) : string :=
  default ""%string (h.(environ) !! key).

Definition fallbackKey : string := "desenvolvimento_inseguro_nao_use_em_producao".

Definition fallbackWarning : string :=
  "AVISO: Usando chave JWT de fallback! Isso é inseguro para produção.".

Definition nonEmpty (x : string) : bool := negb (String.eqb x "").

(** [func GetJWTSecret() []byte], jwt_helper.go lines 14-38.  The result
    is paired with the lines written to standard output. *)
Definition GetJWTSecret (h : Host) : list Byte.byte * list string :=
  let secret := Getenv h "JWT_SECRET_KEY" in
  if nonEmpty secret then (list_byte_of_string secret, [])
  else
    let secret := Getenv h "AG_AUTH_JWT_SECRET_KEY" in
    if nonEmpty secret then (list_byte_of_string secret, [])
    else
      match h.(LoadConfig) "./config" with
      | Ok cfg =>
          if nonEmpty cfg.(config.Auth).(config.JWTSecret)
          then (list_byte_of_string cfg.(config.Auth).(config.JWTSecret), [])
          else (list_byte_of_string fallbackKey, [fallbackWarning])
      | Error _ => (list_byte_of_string fallbackKey, [fallbackWarning])
      end.

End security.

(** ** An in-memory cache and repository, to run the service on inputs *)
Module mem.

(** The store of the cache, the routes of the repository, and the faults
    to inject: per key for the cache, one switch for the repository. *)
Record World : Type := {
  store : gmap string Value;
  get_fault : gmap string error;
  set_fault : gmap string error;
  delete_fault : gmap string error;
  routes : list Route;
  repo_fault : option error
}.

Definition with_store (w : World) (st : gmap string Value) : World :=
  {| store := st; get_fault := w.(get_fault); set_fault := w.(set_fault);
     delete_fault := w.(delete_fault); routes := w.(routes);
     repo_fault := w.(repo_fault) |}.

Definition with_routes (w : World) (rs : list Route) : World :=
  {| store := w.(store); get_fault := w.(get_fault); set_fault := w.(set_fault);
     delete_fault := w.(delete_fault); routes := rs;
     repo_fault := w.(repo_fault) |}.

Definition decodeError : error := errorString "cache: cannot decode value".

Definition Get_route (key : string) (w : World) : GetResult Route * World :=
  match w.(get_fault) !! key with
  | Some e => (GetErr e, w)
  | None =>
      match w.(store) !! key with
      | Some (VRoute r) => (Hit r, w)
      | Some (VRoutes _) => (GetErr decodeError, w)
      | None => (Miss, w)
      end
  end.

Definition Get_routes (key : string) (w : World) : GetResult (list Route) * World :=
  match w.(get_fault) !! key with
  | Some e => (GetErr e, w)
  | None =>
      match w.(store) !! key with
      | Some (VRoutes rs) => (Hit rs, w)
      | Some (VRoute _) => (GetErr decodeError, w)
      | None => (Miss, w)
      end
  end.

Definition Set_ (key : string) (v : Value) (ttl : time.Duration) (w : World)
  : option error * World :=
  match w.(set_fault) !! key with
  | Some e => (Some e, w)
  | None => (None, with_store w (<[key := v]> w.(store)))
  end.

Definition Delete (key : string) (w : World) : option error * World :=
  match w.(delete_fault) !! key with
  | Some e => (Some e, w)
  | None => (None, with_store w (delete key w.(store)))
  end.

Definition Cache : cache.Cache World :=
  {| cache.Get_route := Get_route; cache.Get_routes := Get_routes;
     cache.Set_ := Set_; cache.Delete := Delete |}.

Definition hasPath (path : string) (r : Route) : bool := String.eqb r.(Path) path.

Definition GetRoutes (w : World) : result (list Route) * World :=
  match w.(repo_fault) with
  | Some e => (Error e, w)
  | None => (Ok w.(routes), w)
  end.

Definition AddRoute (r : Route) (w : World) : option error * World :=
  match w.(repo_fault) with
  | Some e => (Some e, w)
  | None => (None, with_routes w (w.(routes) ++ [r]))
  end.

Definition UpdateRoute (r : Route) (w : World) : option error * World :=
  match w.(repo_fault) with
  | Some e => (Some e, w)
  | None =>
      if existsb (hasPath r.(Path)) w.(routes)
      then (None, with_routes w
                    (map (fun r' => if hasPath r.(Path) r' then r else r') w.(routes)))
      else (Some ErrRouteNotFound, w)
  end.

Definition DeleteRoute (path : string) (w : World) : option error * World :=
  match w.(repo_fault) with
  | Some e => (Some e, w)
  | None =>
      if existsb (hasPath path) w.(routes)
      then (None, with_routes w (List.filter (fun r => negb (hasPath path r)) w.(routes)))
      else (Some ErrRouteNotFound, w)
  end.

Definition UpdateMetrics (path : string) (callCount totalResponseTime : Z) (w : World)
  : option error * World :=
  match w.(repo_fault) with
  | Some e => (Some e, w)
  | None =>
      if existsb (hasPath path) w.(routes)
      then (None, with_routes w
                    (map (fun r => if hasPath path r
                                   then {| Path := r.(Path); ServiceURL := r.(ServiceURL);
                                           Methods := r.(Methods); IsActive := r.(IsActive);
                                           CallCount := callCount;
                                           TotalResponseTime := totalResponseTime |}
                                   else r) w.(routes)))
      else (Some ErrRouteNotFound, w)
  end.

Definition Repository : repository.RouteRepository World :=
  {| repository.GetRoutes := GetRoutes; repository.AddRoute := AddRoute;
     repository.UpdateRoute := UpdateRoute; repository.DeleteRoute := DeleteRoute;
     repository.UpdateMetrics := UpdateMetrics |}.

Definition Service : route.Service World := route.NewService Repository Cache.

(** A stand-in for the path matcher: a pattern ending in [*] matches
    every path that extends what precedes the star, any other pattern
    matches itself only. *)
Fixpoint beforeStar (pattern : string) : option string :=
  match pattern with
  | EmptyString => None
  | String c rest =>
      match rest with
      | EmptyString => if Ascii.eqb c "*"%char then Some EmptyString else None
      | _ => option_map (String c) (beforeStar rest)
      end
  end.

Definition Match (pattern path : string) : bool :=
  match beforeStar pattern with
  | Some pre => String.prefix pre path
  | None => String.eqb pattern path
  end.

Definition mkRoute (path url : string) (methods : list string) : Route :=
  {| Path := path; ServiceURL := url; Methods := methods; IsActive := true;
     CallCount := 0; TotalResponseTime := 0 |}.

Definition healthy (rs : list Route) : World :=
  {| store := ∅; get_fault := ∅; set_fault := ∅; delete_fault := ∅;
     routes := rs; repo_fault := None |}.

End mem.


(** ** Concrete situations *)
Module scenario.

Definition users : Route := mem.mkRoute "/users/*" "http://users.internal" ["GET"; "POST"]%string.
Definition aStar : Route := mem.mkRoute "/a/*" "http://first.internal" ["GET"]%string.
Definition aB : Route := mem.mkRoute "/a/b" "http://second.internal" ["GET"]%string.

Definition cacheDown : error := errorString "cache: connection refused".
Definition dbDown : error := errorString "repository: connection refused".

(** Nothing cached, nothing failing. *)
Definition fresh (rs : list Route) : mem.World := mem.healthy rs.

(** The cache holds [r] under [key]. *)
Definition cached (key : string) (r : Route) (rs : list Route) : mem.World :=
  mem.with_store (mem.healthy rs) {[ key := VRoute r ]}.

(** Reads of ["routes"] fail. *)
Definition listReadFails (rs : list Route) : mem.World :=
  {| mem.store := ∅; mem.get_fault := {[ "routes"%string := cacheDown ]};
     mem.set_fault := ∅; mem.delete_fault := ∅;
     mem.routes := rs; mem.repo_fault := None |}.

(** Every write of the keys in [keys] fails. *)
Definition writesFail (keys : list string) (rs : list Route) : mem.World :=
  {| mem.store := ∅; mem.get_fault := ∅;
     mem.set_fault := list_to_map (map (fun k => (k, cacheDown)) keys);
     mem.delete_fault := ∅;
     mem.routes := rs; mem.repo_fault := None |}.

(** Every deletion of the keys in [keys] fails. *)
Definition deletesFail (keys : list string) (rs : list Route) : mem.World :=
  {| mem.store := ∅; mem.get_fault := ∅; mem.set_fault := ∅;
     mem.delete_fault := list_to_map (map (fun k => (k, cacheDown)) keys);
     mem.routes := rs; mem.repo_fault := None |}.

(** The repository fails every call. *)
Definition repoFails (rs : list Route) : mem.World :=
  {| mem.store := ∅; mem.get_fault := ∅; mem.set_fault := ∅; mem.delete_fault := ∅;
     mem.routes := rs; mem.repo_fault := Some dbDown |}.

Definition hostWith (env : list (string * string)) (cfg : result config.Config)
  : security.Host :=
  {| security.environ := list_to_map env; security.LoadConfig := fun _ => cfg |}.

Definition configWith (secret : string) : config.Config :=
  {| config.Auth := {| config.JWTSecret := secret |} |}.

End scenario.

(** The list [routes] is what the cache holds under ["routes"] in [w],
    or what the repository lists after a miss on that key. *)
Definition list_source {W : Type} (s : route.Service W) (w : W) (routes : list Route) : Prop :=
  (exists w1, Get_routes s.(route.cache) "routes" w = (Hit routes, w1)) \/
  (exists w1 w2, Get_routes s.(route.cache) "routes" w = (Miss, w1) /\
                 repository.GetRoutes s.(route.repo) w1 = (Ok routes, w2)).

(** ** Further observations on traces *)

(** Calls that change the repository or remove an entry of the cache. *)
Definition is_mutation (ev : Event) : bool :=
  match ev with
  | EvRepoAddRoute _ _ | EvRepoUpdateRoute _ _ | EvRepoDeleteRoute _ _
  | EvRepoUpdateMetrics _ _ _ _ | EvCacheDelete _ _ => true
  | _ => false
  end.

Definition is_cache_read (ev : Event) : bool :=
  match ev with EvCacheGet _ _ => true | _ => false end.

(** Events of the scan: matcher calls and the write of a single route. *)
Definition is_scan_event (ev : Event) : bool :=
  match ev with
  | EvMatch _ _ _ => true
  | EvCacheSet _ (VRoute _) _ _ => true
  | _ => false
  end.

(** The keys of the cache deletions of a trace, in order. *)
Definition deleted_keys (t : list Event) : list string :=
  flat_map (fun ev => match ev with EvCacheDelete key _ => [key] | _ => [] end) t.

(** Two laws a cache may obey: a write it accepted is served by the next
    read of the key, and a key whose deletion it accepted is missed by the
    next read. *)
Definition serves_writes {W : Type} (c : Cache W) : Prop :=
  forall key r ttl w0 w1,
    Set_ c key (VRoute r) ttl w0 = (None, w1) ->
    exists w2, Get_route c key w1 = (Hit r, w2).

Definition forgets_deleted {W : Type} (c : Cache W) : Prop :=
  forall key w0 w1,
    Delete c key w0 = (None, w1) ->
    exists w2, Get_routes c key w1 = (Miss, w2).

(** ** The in-memory cache without fault injection *)
Module reliable.

Definition Get_route (key : string) (w : mem.World) : GetResult Route * mem.World :=
  match w.(mem.store) !! key with
  | Some (VRoute r) => (Hit r, w)
  | Some (VRoutes _) => (GetErr mem.decodeError, w)
  | None => (Miss, w)
  end.

Definition Get_routes (key : string) (w : mem.World) : GetResult (list Route) * mem.World :=
  match w.(mem.store) !! key with
  | Some (VRoutes rs) => (Hit rs, w)
  | Some (VRoute _) => (GetErr mem.decodeError, w)
  | None => (Miss, w)
  end.

Definition Set_ (key : string) (v : Value) (ttl : time.Duration) (w : mem.World)
  : option error * mem.World :=
  (None, mem.with_store w (<[key := v]> w.(mem.store))).

Definition Delete (key : string) (w : mem.World) : option error * mem.World :=
  (None, mem.with_store w (delete key w.(mem.store))).

Definition Cache : cache.Cache mem.World :=
  {| cache.Get_route := Get_route; cache.Get_routes := Get_routes;
     cache.Set_ := Set_; cache.Delete := Delete |}.

Definition Service : route.Service mem.World := route.NewService mem.Repository Cache.

End reliable.

(** Deleting the keys of a list one after the other: the state reached
    and the deletion events, each with the answer of the cache. *)
Fixpoint delete_run {W : Type} (c : Cache W) (keys : list string) (w : W)
  : W * list Event :=
  match keys with
  | [] => (w, [])
  | key :: rest =>
      let '(d, w1) := Delete c key w in
      let '(w2, t) := delete_run c rest w1 in
      (w2, EvCacheDelete key d :: t)
  end.

(** * Properties of the route service *)

Section RouteProperties.

Context {W : Type}.
Variable MatchRoutePath : string -> string -> bool.
Variable s : route.Service W.

Abbreviation GetRoutes := (route.GetRoutes s).
Abbreviation loadRoutes := (route.loadRoutes s).
Abbreviation scanRoutes := (route.scanRoutes MatchRoutePath s).
Abbreviation GetRouteByPath := (route.GetRouteByPath MatchRoutePath s).
Abbreviation ClearCache := (route.ClearCache s).
Abbreviation clearRoutes := (route.clearRoutes s).
Abbreviation AddRoute := (route.AddRoute s).
Abbreviation UpdateRoute := (route.UpdateRoute s).
Abbreviation DeleteRoute := (route.DeleteRoute s).
Abbreviation UpdateMetrics := (route.UpdateMetrics s).
Abbreviation IsMethodAllowed := (route.IsMethodAllowed MatchRoutePath s).

(** ** Running the monad *)

Lemma run_bind {A B} (m : M W A) (k : A -> M W B) (w w1 : W) (a : A) (t1 : list Event) :
  m w = (a, w1, t1) ->
  bind m k w = (let '(b, w2, t2) := k a w1 in (b, w2, t1 ++ t2)).
Proof. intros Hm. unfold bind. now rewrite Hm. Qed.

Lemma run_call {A} (op : W -> A * W) (ev : A -> Event) (w w1 : W) (a : A) :
  op w = (a, w1) -> call op ev w = (a, w1, [ev a]).
Proof. intros Hop. unfold call. now rewrite Hop. Qed.

Lemma run_cacheSet (key : string) (v : Value) (ttl : time.Duration) (w : W) :
  route.cacheSet s key v ttl w =
  ((Set_ s.(route.cache) key v ttl w).1, (Set_ s.(route.cache) key v ttl w).2,
   [EvCacheSet key v ttl (Set_ s.(route.cache) key v ttl w).1]).
Proof.
  unfold route.cacheSet, call.
  now destruct (Set_ (route.cache s) key v ttl w).
Qed.

Lemma run_cacheDelete (key : string) (w : W) :
  route.cacheDelete s key w =
  ((Delete s.(route.cache) key w).1, (Delete s.(route.cache) key w).2,
   [EvCacheDelete key (Delete s.(route.cache) key w).1]).
Proof.
  unfold route.cacheDelete, call.
  now destruct (Delete (route.cache s) key w).
Qed.

(** ** Loading the list (lines 108-137) *)

Lemma loadRoutes_hit (w w1 : W) (routes : list Route) :
  Get_routes s.(route.cache) "routes" w = (Hit routes, w1) ->
  loadRoutes w = (Ok routes, w1, [EvCacheGet "routes" (Hit (VRoutes routes))]).
Proof.
  intros Hg. unfold route.loadRoutes.
  erewrite run_bind by (apply run_call, Hg). reflexivity.
Qed.

Lemma loadRoutes_read_error (w w1 : W) (e : error) :
  Get_routes s.(route.cache) "routes" w = (GetErr e, w1) ->
  loadRoutes w = (Ok [], w1, [EvCacheGet "routes" (GetErr e)]).
Proof.
  intros Hg. unfold route.loadRoutes.
  erewrite run_bind by (apply run_call, Hg). reflexivity.
Qed.

Lemma loadRoutes_miss_repo_error (w w1 w2 : W) (e : error) :
  Get_routes s.(route.cache) "routes" w = (Miss, w1) ->
  repository.GetRoutes s.(route.repo) w1 = (Error e, w2) ->
  loadRoutes w = (Error e, w2, [EvCacheGet "routes" Miss; EvRepoGetRoutes (Error e)]).
Proof.
  intros Hg Hr. unfold route.loadRoutes.
  erewrite run_bind by (apply run_call, Hg). cbn beta iota.
  erewrite run_bind by (apply run_call, Hr). reflexivity.
Qed.

Lemma loadRoutes_miss_repo_ok (w w1 w2 : W) (routes : list Route) :
  Get_routes s.(route.cache) "routes" w = (Miss, w1) ->
  repository.GetRoutes s.(route.repo) w1 = (Ok routes, w2) ->
  loadRoutes w =
  (Ok routes, (Set_ s.(route.cache) "routes" (VRoutes routes) fiveMinutes w2).2,
   [EvCacheGet "routes" Miss; EvRepoGetRoutes (Ok routes);
    EvCacheSet "routes" (VRoutes routes) fiveMinutes
      (Set_ s.(route.cache) "routes" (VRoutes routes) fiveMinutes w2).1]).
Proof.
  intros Hg Hr. unfold route.loadRoutes.
  erewrite run_bind by (apply run_call, Hg). cbn beta iota.
  erewrite run_bind by (apply run_call, Hr). cbn beta iota.
  erewrite run_bind by apply run_cacheSet. reflexivity.
Qed.

(** The four cases above are all there is. *)
Lemma loadRoutes_cases (w : W) :
  (exists routes w1, Get_routes s.(route.cache) "routes" w = (Hit routes, w1)) \/
  (exists e w1, Get_routes s.(route.cache) "routes" w = (GetErr e, w1)) \/
  (exists w1 e w2, Get_routes s.(route.cache) "routes" w = (Miss, w1) /\
                   repository.GetRoutes s.(route.repo) w1 = (Error e, w2)) \/
  (exists w1 routes w2, Get_routes s.(route.cache) "routes" w = (Miss, w1) /\
                        repository.GetRoutes s.(route.repo) w1 = (Ok routes, w2)).
Proof.
  destruct (Get_routes (route.cache s) "routes" w) as [[routes| |e] w1] eqn:Hg.
  - left. eauto.
  - destruct (repository.GetRoutes (route.repo s) w1) as [[routes|e] w2] eqn:Hr.
    + do 3 right. eauto 6.
    + do 2 right. left. eauto 6.
  - right. left. eauto.
Qed.

(** A non-empty list reaching the scan is the very list the cache or the
    repository answered with. *)
Lemma loadRoutes_source (w w2 : W) (routes : list Route) (t : list Event) :
  loadRoutes w = (Ok routes, w2, t) ->
  routes <> [] ->
  list_source s w routes.
Proof.
  intros Hrun Hne.
  destruct (loadRoutes_cases w)
    as [(rs & w1 & Hg)|[(e & w1 & Hg)|[(w1 & e & w3 & Hg & Hr)|(w1 & rs & w3 & Hg & Hr)]]].
  - rewrite (loadRoutes_hit _ _ _ Hg) in Hrun. inversion Hrun; subst. left. eauto.
  - rewrite (loadRoutes_read_error _ _ _ Hg) in Hrun. inversion Hrun; subst. now destruct Hne.
  - rewrite (loadRoutes_miss_repo_error _ _ _ _ Hg Hr) in Hrun. discriminate.
  - rewrite (loadRoutes_miss_repo_ok _ _ _ _ Hg Hr) in Hrun. inversion Hrun; subst.
    right. eauto.
Qed.

(** ** The scan (lines 143-173) *)

Lemma scanRoutes_no_match (path : string) (routes : list Route) (w : W) :
  no_match MatchRoutePath path routes ->
  scanRoutes routes path w =
  (Error ErrRouteNotFound, w, map (fun r => EvMatch r.(Path) path false) routes).
Proof.
  induction 1 as [|r rest Hr _ IH]; [reflexivity|].
  cbn [route.scanRoutes]. unfold bind at 1, route.matchRoutePath at 1.
  rewrite Hr, IH. reflexivity.
Qed.

Lemma scanRoutes_first_match (path : string) (pre post : list Route) (r : Route) (w : W) :
  no_match MatchRoutePath path pre ->
  MatchRoutePath r.(Path) path = true ->
  scanRoutes (pre ++ r :: post) path w =
  (Ok r, (Set_ s.(route.cache) (routeKey path) (VRoute r) fiveMinutes w).2,
   map (fun r' => EvMatch r'.(Path) path false) pre ++
   [EvMatch r.(Path) path true;
    EvCacheSet (routeKey path) (VRoute r) fiveMinutes
      (Set_ s.(route.cache) (routeKey path) (VRoute r) fiveMinutes w).1]).
Proof.
  intros Hpre Hr. induction Hpre as [|r0 rest Hr0 _ IH].
  - cbn [app map route.scanRoutes]. unfold bind at 1, route.matchRoutePath at 1.
    rewrite Hr. erewrite run_bind by apply run_cacheSet. reflexivity.
  - cbn [app map route.scanRoutes]. unfold bind at 1, route.matchRoutePath at 1.
    rewrite Hr0, IH. reflexivity.
Qed.

(** ** GetRouteByPath after the individual lookup *)

Lemma GetRouteByPath_not_hit (path : string) (w w1 : W) (g : GetResult Route) :
  Get_route s.(route.cache) (routeKey path) w = (g, w1) ->
  (forall r, g <> Hit r) ->
  GetRouteByPath path w =
  (let '(lr, w2, t2) := loadRoutes w1 in
   let '(res, w3, t3) :=
     match lr with
     | Error err => (Error err, w2, [])
     | Ok routes => scanRoutes routes path w2
     end in
   (res, w3, EvCacheGet (routeKey path) (GetResult_map VRoute g) :: t2 ++ t3)).
Proof.
  intros Hg Hnot. unfold route.GetRouteByPath.
  erewrite run_bind by (apply run_call, Hg).
  destruct g as [r| |e]; [now destruct (Hnot r)| |];
    unfold bind; destruct (loadRoutes w1) as [[[routes|err] w2] t2];
    try reflexivity; now destruct (scanRoutes routes path w2) as [[res w3] t3].
Qed.

(** When the read of ["routes"] fails, the run ends after the two cache
    reads, whatever the repository holds. *)
Lemma GetRouteByPath_list_read_error
  (path : string) (w w1 w2 : W) (g : GetResult Route) (e : error) :
  Get_route s.(route.cache) (routeKey path) w = (g, w1) ->
  (forall r, g <> Hit r) ->
  Get_routes s.(route.cache) "routes" w1 = (GetErr e, w2) ->
  GetRouteByPath path w =
    (Error ErrRouteNotFound, w2,
     [EvCacheGet (routeKey path) (GetResult_map VRoute g);
      EvCacheGet "routes" (GetErr e)]).
Proof.
  intros Hg Hnot Hl.
  rewrite (GetRouteByPath_not_hit path w w1 g Hg Hnot).
  rewrite (loadRoutes_read_error _ _ _ Hl). reflexivity.
Qed.

(** ** What a run of GetRouteByPath can emit *)

Lemma loadRoutes_trace (w w2 : W) (lr : result (list Route)) (t : list Event) :
  loadRoutes w = (lr, w2, t) -> forallb is_list_event t = true.
Proof.
  intros Hrun.
  destruct (loadRoutes_cases w)
    as [(routes & w1 & Hg)|[(e & w1 & Hg)|[(w1 & e & w3 & Hg & Hr)|(w1 & routes & w3 & Hg & Hr)]]].
  - rewrite (loadRoutes_hit _ _ _ Hg) in Hrun. now inversion Hrun.
  - rewrite (loadRoutes_read_error _ _ _ Hg) in Hrun. now inversion Hrun.
  - rewrite (loadRoutes_miss_repo_error _ _ _ _ Hg Hr) in Hrun. now inversion Hrun.
  - rewrite (loadRoutes_miss_repo_ok _ _ _ _ Hg Hr) in Hrun. now inversion Hrun.
Qed.

Lemma filter_none (kind other : Event -> bool) (t : list Event) :
  forallb other t = true ->
  (forall ev, other ev = true -> kind ev = false) ->
  List.filter kind t = [].
Proof.
  intros Hall Hdisj. induction t as [|ev t IH]; [reflexivity|].
  cbn in Hall. apply andb_prop in Hall as [Hev Ht].
  cbn. rewrite (Hdisj ev Hev). auto.
Qed.

Lemma list_event_not_match (ev : Event) : is_list_event ev = true -> is_match_call ev = false.
Proof. now destruct ev. Qed.

Lemma list_event_not_individual (ev : Event) :
  is_list_event ev = true -> is_individual_write ev = false.
Proof. destruct ev as [| ? [] | | | | | | |]; easy. Qed.

Lemma filter_match_events_false (path : string) (rs : list Route) :
  no_match MatchRoutePath path rs ->
  map (fun r => EvMatch r.(Path) path false) rs = match_events MatchRoutePath path rs /\
  List.filter is_match_call (map (fun r => EvMatch r.(Path) path false) rs) =
    map (fun r => EvMatch r.(Path) path false) rs /\
  List.filter is_individual_write (map (fun r => EvMatch r.(Path) path false) rs) = [].
Proof.
  induction 1 as [|r rest Hr _ (IH1 & IH2 & IH3)]; [now cbn|].
  cbn. rewrite Hr, IH2, IH3. cbn in IH1. now rewrite IH1.
Qed.

Lemma GetRouteByPath_hit (path : string) (w w1 : W) (route : Route) :
  Get_route s.(route.cache) (routeKey path) w = (Hit route, w1) ->
  GetRouteByPath path w = (Ok route, w1, [EvCacheGet (routeKey path) (Hit (VRoute route))]).
Proof.
  intros Hg. unfold route.GetRouteByPath.
  erewrite run_bind by (apply run_call, Hg). reflexivity.
Qed.

(** Every list either has no matching route or splits at its first one. *)
Lemma first_match_split (path : string) (routes : list Route) :
  no_match MatchRoutePath path routes \/
  exists pre r post, routes = pre ++ r :: post /\
                     no_match MatchRoutePath path pre /\
                     MatchRoutePath r.(Path) path = true.
Proof.
  induction routes as [|r0 rest IH].
  - left. constructor.
  - destruct (MatchRoutePath r0.(Path) path) eqn:Hr0.
    + right. exists [], r0, rest. repeat split; [constructor | assumption].
    + destruct IH as [Hnone|(pre & r & post & -> & Hpre & Hr)].
      * left. now constructor.
      * right. exists (r0 :: pre), r, post. repeat split; [now constructor | assumption].
Qed.

(** ** The claims about GetRouteByPath *)

(** C5.  When the cache holds an entry under ["route:" + path], the call
    returns that route at once: the only event of the run is the cache
    read, so the repository and the path matcher are called zero times
    and no list is scanned. *)
Theorem GetRouteByPath_individual_hit (path : string) (w w1 : W) (route : Route) :
  Get_route s.(route.cache) ("route:" +:+ path) w = (Hit route, w1) ->
  GetRouteByPath path w =
    (Ok route, w1, [EvCacheGet ("route:" +:+ path) (Hit (VRoute route))]) /\
  count_calls is_repo_call (trace_of (GetRouteByPath path) w) = 0%nat /\
  count_calls is_match_call (trace_of (GetRouteByPath path) w) = 0%nat.
Proof.
  intros Hg. pose proof (GetRouteByPath_hit path w w1 route Hg) as Hrun.
  unfold trace_of. rewrite Hrun. repeat split.
Qed.

(** C3.  When the individual lookup misses and no route of the resolved
    list is accepted by the matcher for the requested path, the call
    invokes the matcher once on every route of the list, in order, and
    returns the route-not-found error and no route. *)
Theorem GetRouteByPath_no_match_not_found
  (path : string) (w w1 w2 : W) (routes : list Route) (t : list Event) :
  Get_route s.(route.cache) ("route:" +:+ path) w = (Miss, w1) ->
  loadRoutes w1 = (Ok routes, w2, t) ->
  no_match MatchRoutePath path routes ->
  GetRouteByPath path w =
    (Error ErrRouteNotFound, w2,
     EvCacheGet ("route:" +:+ path) Miss
       :: t ++ map (fun r => EvMatch r.(Path) path false) routes).
Proof.
  intros Hg Hload Hnone.
  rewrite (GetRouteByPath_not_hit path w w1 Miss Hg) by discriminate.
  rewrite Hload, (scanRoutes_no_match _ _ _ Hnone). reflexivity.
Qed.

(** C4.  When the call falls through to the scan, the list scanned is
    the one the cache or the repository answered with; the matcher is
    invoked on its routes in list order, up to and including the first
    route it accepts, and that route is returned, whatever follows it in
    the list (a later matching route included). *)
Theorem GetRouteByPath_first_match_wins
  (path : string) (w w1 w2 : W) (g : GetResult Route) (routes : list Route)
  (t : list Event) (pre post : list Route) (r : Route) :
  Get_route s.(route.cache) ("route:" +:+ path) w = (g, w1) ->
  (forall r0, g <> Hit r0) ->
  loadRoutes w1 = (Ok routes, w2, t) ->
  routes = pre ++ r :: post ->
  no_match MatchRoutePath path pre ->
  MatchRoutePath r.(Path) path = true ->
  list_source s w1 routes /\
  result_of (GetRouteByPath path) w = Ok r /\
  List.filter is_match_call (trace_of (GetRouteByPath path) w) =
    match_events MatchRoutePath path (pre ++ [r]).
Proof.
  intros Hg Hnot Hload -> Hpre Hr.
  split; [apply (loadRoutes_source _ _ _ _ Hload); now destruct pre|].
  unfold result_of, trace_of.
  rewrite (GetRouteByPath_not_hit path w w1 g Hg Hnot).
  rewrite Hload, (scanRoutes_first_match _ _ _ _ _ Hpre Hr).
  split; [reflexivity|].
  cbn [fst snd List.filter is_match_call].
  rewrite !List.filter_app.
  rewrite (filter_none is_match_call is_list_event t (loadRoutes_trace _ _ _ _ Hload)
             list_event_not_match).
  destruct (filter_match_events_false path pre Hpre) as (Hev & Hkeep & _).
  rewrite Hkeep, Hev. unfold match_events. rewrite map_app. cbn. now rewrite Hr.
Qed.

(** C6.  When the scan finds the route [r], the run contains exactly one
    write of a single route: [r] stored under ["route:" + path], the
    requested path, with a time to live of five minutes (in nanoseconds).
    That write is the last call of the run, so the state the run leaves
    is the state the cache produced for it.  Whatever the cache answers
    to the write, [r] is returned. *)
Theorem GetRouteByPath_match_cached_once
  (path : string) (w w1 w2 : W) (g : GetResult Route) (routes : list Route)
  (t : list Event) (pre post : list Route) (r : Route) :
  Get_route s.(route.cache) ("route:" +:+ path) w = (g, w1) ->
  (forall r0, g <> Hit r0) ->
  loadRoutes w1 = (Ok routes, w2, t) ->
  routes = pre ++ r :: post ->
  no_match MatchRoutePath path pre ->
  MatchRoutePath r.(Path) path = true ->
  result_of (GetRouteByPath path) w = Ok r /\
  List.filter is_individual_write (trace_of (GetRouteByPath path) w) =
    [EvCacheSet ("route:" +:+ path) (VRoute r) 300000000000
       (Set_ s.(route.cache) ("route:" +:+ path) (VRoute r) 300000000000 w2).1] /\
  300000000000 = 5 * time.Minute /\
  world_of (GetRouteByPath path) w =
    (Set_ s.(route.cache) ("route:" +:+ path) (VRoute r) 300000000000 w2).2 /\
  trace_of (GetRouteByPath path) w =
    EvCacheGet ("route:" +:+ path) (GetResult_map VRoute g)
      :: t ++ map (fun r' => EvMatch r'.(Path) path false) pre
      ++ [EvMatch r.(Path) path true;
          EvCacheSet ("route:" +:+ path) (VRoute r) 300000000000
            (Set_ s.(route.cache) ("route:" +:+ path) (VRoute r) 300000000000 w2).1].
Proof.
  intros Hg Hnot Hload -> Hpre Hr.
  unfold result_of, trace_of, world_of.
  rewrite (GetRouteByPath_not_hit path w w1 g Hg Hnot).
  rewrite Hload, (scanRoutes_first_match _ _ _ _ _ Hpre Hr).
  split; [reflexivity|]. split; [|repeat split].
  cbn [fst snd List.filter is_individual_write].
  rewrite !List.filter_app.
  rewrite (filter_none is_individual_write is_list_event t
             (loadRoutes_trace _ _ _ _ Hload) list_event_not_individual).
  destruct (filter_match_events_false path pre Hpre) as (_ & _ & Hnone).
  rewrite Hnone. reflexivity.
Qed.

Lemma loadRoutes_writes (w w2 : W) (lr : result (list Route)) (t : list Event)
  (key : string) (v : Value) (ttl : time.Duration) (ans : option error) :
  loadRoutes w = (lr, w2, t) ->
  In (EvCacheSet key v ttl ans) t ->
  key = "routes"%string /\ ttl = fiveMinutes /\
  exists routes, v = VRoutes routes /\ In (EvRepoGetRoutes (Ok routes)) t.
Proof.
  intros Hrun Hin.
  destruct (loadRoutes_cases w)
    as [(routes & w1 & Hg)|[(e & w1 & Hg)|[(w1 & e & w3 & Hg & Hr)|(w1 & routes & w3 & Hg & Hr)]]].
  - rewrite (loadRoutes_hit _ _ _ Hg) in Hrun. inversion Hrun; subst.
    destruct Hin as [?|[]]; discriminate.
  - rewrite (loadRoutes_read_error _ _ _ Hg) in Hrun. inversion Hrun; subst.
    destruct Hin as [?|[]]; discriminate.
  - rewrite (loadRoutes_miss_repo_error _ _ _ _ Hg Hr) in Hrun. inversion Hrun; subst.
    destruct Hin as [?|[?|[]]]; discriminate.
  - rewrite (loadRoutes_miss_repo_ok _ _ _ _ Hg Hr) in Hrun. inversion Hrun; subst.
    destruct Hin as [?|[?|[Heq|[]]]]; try discriminate.
    inversion Heq; subst. repeat split. exists routes. cbn. auto.
Qed.

Lemma scanRoutes_writes (path : string) (routes : list Route) (w w' : W)
  (res : result Route) (t : list Event)
  (key : string) (v : Value) (ttl : time.Duration) (ans : option error) :
  scanRoutes routes path w = (res, w', t) ->
  In (EvCacheSet key v ttl ans) t ->
  key = ("route:" +:+ path)%string /\ ttl = fiveMinutes /\
  exists r, v = VRoute r /\ res = Ok r.
Proof.
  revert t. induction routes as [|r0 rest IH]; intros t Hrun Hin.
  - inversion Hrun; subst. destruct Hin.
  - cbn [route.scanRoutes] in Hrun. unfold bind at 1, route.matchRoutePath at 1 in Hrun.
    destruct (MatchRoutePath r0.(Path) path).
    + erewrite run_bind in Hrun by apply run_cacheSet.
      inversion Hrun; subst.
      destruct Hin as [?|[Heq|[]]]; [discriminate|].
      inversion Heq; subst. repeat split. eauto.
    + destruct (scanRoutes rest path w) as [[res0 w0] t0] eqn:Hrest.
      inversion Hrun; subst.
      destruct Hin as [?|Hin]; [discriminate|]. eapply IH; eauto.
Qed.

Lemma scanRoutes_error_writes_nothing (path : string) (routes : list Route) (w w' : W)
  (e : error) (t : list Event) :
  scanRoutes routes path w = (Error e, w', t) ->
  List.filter is_cache_write t = [].
Proof.
  revert t. induction routes as [|r0 rest IH]; intros t Hrun.
  - now inversion Hrun.
  - cbn [route.scanRoutes] in Hrun. unfold bind at 1, route.matchRoutePath at 1 in Hrun.
    destruct (MatchRoutePath r0.(Path) path).
    + erewrite run_bind in Hrun by apply run_cacheSet. discriminate.
    + destruct (scanRoutes rest path w) as [[res0 w0] t0] eqn:Hrest.
      inversion Hrun; subst. cbn. eauto.
Qed.

Lemma individual_write_is_write (t : list Event) :
  List.filter is_cache_write t = [] -> List.filter is_individual_write t = [].
Proof.
  induction t as [|ev t IH]; [reflexivity|]. cbn.
  destruct ev as [| ? [] | | | | | | |]; cbn; try discriminate; auto.
Qed.

(** C10.  A run of GetRouteByPath writes to the cache in two places only:
    the list just read from the repository goes under ["routes"], and a
    route found by the scan, which is then returned, goes under
    ["route:" + path].  A run that returns an error writes no single
    route, and a run that hits the individual cache writes nothing. *)
Theorem GetRouteByPath_cache_writes (path : string) (w : W) :
  (forall key v ttl ans,
      In (EvCacheSet key v ttl ans) (trace_of (GetRouteByPath path) w) ->
      (key = "routes"%string /\ ttl = fiveMinutes /\
       exists routes, v = VRoutes routes /\
                      In (EvRepoGetRoutes (Ok routes)) (trace_of (GetRouteByPath path) w)) \/
      (key = ("route:" +:+ path)%string /\ ttl = fiveMinutes /\
       exists r, v = VRoute r /\ result_of (GetRouteByPath path) w = Ok r)) /\
  (forall e, result_of (GetRouteByPath path) w = Error e ->
             count_calls is_individual_write (trace_of (GetRouteByPath path) w) = 0%nat) /\
  (forall route w1, Get_route s.(route.cache) ("route:" +:+ path) w = (Hit route, w1) ->
                    count_calls is_cache_write (trace_of (GetRouteByPath path) w) = 0%nat).
Proof.
  pose proof (GetRouteByPath_hit path w) as Hhit.
  unfold trace_of, result_of, count_calls.
  destruct (Get_route (route.cache s) ("route:" +:+ path) w) as [g w1] eqn:Hg.
  assert (Hcases : (exists route, g = Hit route) \/ (forall r0, g <> Hit r0)).
  { destruct g; [left; eauto | right; discriminate | right; discriminate]. }
  destruct Hcases as [(route & ->)|Hnot].
  { rewrite (Hhit w1 route Hg). cbn. repeat split.
    - intros key v ttl ans [?|[]]. discriminate. }
  rewrite (GetRouteByPath_not_hit path w w1 g Hg Hnot).
  destruct (loadRoutes w1) as [[lr w2] t2] eqn:Hload.
  destruct lr as [routes|err].
  - destruct (scanRoutes routes path w2) as [[res w3] t3] eqn:Hscan. cbn [fst snd].
    repeat split.
    + intros key v ttl ans [?|Hin]; [discriminate|].
      apply in_app_iff in Hin as [Hin|Hin].
      * left. destruct (loadRoutes_writes _ _ _ _ _ _ _ _ Hload Hin) as (-> & -> & rs & -> & Hrepo).
        repeat split. exists rs. split; [reflexivity|].
        right. apply in_app_iff. now left.
      * right. exact (scanRoutes_writes _ _ _ _ _ _ _ _ _ _ Hscan Hin).
    + intros e ->. cbn [List.filter is_individual_write]. rewrite List.filter_app.
      rewrite (filter_none is_individual_write is_list_event t2
                 (loadRoutes_trace _ _ _ _ Hload) list_event_not_individual).
      now rewrite (individual_write_is_write _ (scanRoutes_error_writes_nothing _ _ _ _ _ _ Hscan)).
    + intros route w' [=]. subst. now destruct (Hnot route).
  - cbn [fst snd]. rewrite app_nil_r. repeat split.
    + intros key v ttl ans [?|Hin]; [discriminate|].
      left. destruct (loadRoutes_writes _ _ _ _ _ _ _ _ Hload Hin) as (-> & -> & rs & -> & Hrepo).
      repeat split. exists rs. split; [reflexivity|]. now right.
    + intros e _. cbn [List.filter is_individual_write].
      now rewrite (filter_none is_individual_write is_list_event t2
                     (loadRoutes_trace _ _ _ _ Hload) list_event_not_individual).
    + intros route w' [=]. subst. now destruct (Hnot route).
Qed.

(** ** IsMethodAllowed *)

Lemma methodListed_In (methods : list string) (method : string) :
  route.methodListed methods method = true <-> In method methods.
Proof.
  induction methods as [|m rest IH]; cbn; [easy|].
  destruct (String.eqb_spec m method) as [->|Hne]; [tauto|].
  rewrite IH. split; [auto|]. now intros [?|?].
Qed.

(** C7.  IsMethodAllowed answers [(true, nil)] exactly when GetRouteByPath
    resolves a route whose [Methods] contain the method; it answers
    [(false, nil)] when the route resolves without the method (an empty
    [Methods] included); and when GetRouteByPath fails it answers [false]
    with that very error.  It does nothing beyond the lookup. *)
Theorem IsMethodAllowed_spec (path method : string) (w : W) :
  (result_of (IsMethodAllowed path method) w = (true, None) <->
   exists route, result_of (GetRouteByPath path) w = Ok route /\
                 In method route.(Methods)) /\
  (forall route, result_of (GetRouteByPath path) w = Ok route ->
                 ~ In method route.(Methods) ->
                 result_of (IsMethodAllowed path method) w = (false, None)) /\
  (forall e, result_of (GetRouteByPath path) w = Error e ->
             result_of (IsMethodAllowed path method) w = (false, Some e)) /\
  world_of (IsMethodAllowed path method) w = world_of (GetRouteByPath path) w /\
  trace_of (IsMethodAllowed path method) w = trace_of (GetRouteByPath path) w.
Proof.
  unfold result_of, world_of, trace_of, route.IsMethodAllowed, bind.
  destruct (GetRouteByPath path w) as [[[route|e] w1] t]; cbn;
    rewrite app_nil_r; repeat split.
  - intros Heq. exists route. split; [reflexivity|].
    apply methodListed_In. congruence.
  - intros (route' & [= <-] & Hin). apply methodListed_In in Hin. now rewrite Hin.
  - intros route' [= <-] Hnot.
    destruct (route.methodListed (Methods route) method) eqn:Hl; [|reflexivity].
    apply methodListed_In in Hl. contradiction.
  - discriminate.
  - discriminate.
  - now intros (route & [=] & _).
  - discriminate.
  - now intros e' [= ->].
Qed.

(** ** Mutations *)

(** C8.  UpdateRoute and DeleteRoute: when the repository refuses the
    mutation, its error is returned and the repository call is the only
    event of the run, so no cache deletion is issued and the state is the
    one the repository left; when it accepts, the run deletes
    ["route:" + path] and then ["routes"] on the cache, leaves the state
    the second deletion produced, and returns nil whatever the cache
    answers to the two deletions. *)
Theorem UpdateRoute_DeleteRoute_invalidate (route : Route) (path : string) (w : W) :
  (forall err w1,
      repository.UpdateRoute s.(route.repo) route w = (Some err, w1) ->
      UpdateRoute route w = (Some err, w1, [EvRepoUpdateRoute route (Some err)])) /\
  (forall w1,
      repository.UpdateRoute s.(route.repo) route w = (None, w1) ->
      UpdateRoute route w =
        (None,
         (Delete s.(route.cache) "routes"
            (Delete s.(route.cache) ("route:" +:+ route.(Path)) w1).2).2,
         [EvRepoUpdateRoute route None;
          EvCacheDelete ("route:" +:+ route.(Path))
            (Delete s.(route.cache) ("route:" +:+ route.(Path)) w1).1;
          EvCacheDelete "routes"
            (Delete s.(route.cache) "routes"
               (Delete s.(route.cache) ("route:" +:+ route.(Path)) w1).2).1])) /\
  (forall err w1,
      repository.DeleteRoute s.(route.repo) path w = (Some err, w1) ->
      DeleteRoute path w = (Some err, w1, [EvRepoDeleteRoute path (Some err)])) /\
  (forall w1,
      repository.DeleteRoute s.(route.repo) path w = (None, w1) ->
      DeleteRoute path w =
        (None,
         (Delete s.(route.cache) "routes"
            (Delete s.(route.cache) ("route:" +:+ path) w1).2).2,
         [EvRepoDeleteRoute path None;
          EvCacheDelete ("route:" +:+ path)
            (Delete s.(route.cache) ("route:" +:+ path) w1).1;
          EvCacheDelete "routes"
            (Delete s.(route.cache) "routes"
               (Delete s.(route.cache) ("route:" +:+ path) w1).2).1])).
Proof.
  repeat split.
  - intros err w1 Hu. unfold route.UpdateRoute.
    erewrite run_bind by (apply run_call, Hu). reflexivity.
  - intros w1 Hu. unfold route.UpdateRoute.
    erewrite run_bind by (apply run_call, Hu). cbn beta iota.
    erewrite run_bind by apply run_cacheDelete.
    erewrite run_bind by apply run_cacheDelete.
    reflexivity.
  - intros err w1 Hd. unfold route.DeleteRoute.
    erewrite run_bind by (apply run_call, Hd). reflexivity.
  - intros w1 Hd. unfold route.DeleteRoute.
    erewrite run_bind by (apply run_call, Hd). cbn beta iota.
    erewrite run_bind by apply run_cacheDelete.
    erewrite run_bind by apply run_cacheDelete.
    reflexivity.
Qed.

(** ** Where returned errors come from *)

Lemma scanRoutes_error (path : string) (routes : list Route) (w w' : W)
  (e : error) (t : list Event) :
  scanRoutes routes path w = (Error e, w', t) -> e = ErrRouteNotFound.
Proof.
  revert t. induction routes as [|r0 rest IH]; intros t Hrun.
  - now inversion Hrun.
  - cbn [route.scanRoutes] in Hrun. unfold bind at 1, route.matchRoutePath at 1 in Hrun.
    destruct (MatchRoutePath r0.(Path) path).
    + erewrite run_bind in Hrun by apply run_cacheSet. discriminate.
    + destruct (scanRoutes rest path w) as [[res0 w0] t0] eqn:Hrest.
      inversion Hrun; subst. eauto.
Qed.

Lemma loadRoutes_error (w w2 : W) (e : error) (t : list Event) :
  loadRoutes w = (Error e, w2, t) -> from_repository e t.
Proof.
  intros Hrun.
  destruct (loadRoutes_cases w)
    as [(routes & w1 & Hg)|[(e' & w1 & Hg)|[(w1 & e' & w3 & Hg & Hr)|(w1 & routes & w3 & Hg & Hr)]]].
  - rewrite (loadRoutes_hit _ _ _ Hg) in Hrun. discriminate.
  - rewrite (loadRoutes_read_error _ _ _ Hg) in Hrun. discriminate.
  - rewrite (loadRoutes_miss_repo_error _ _ _ _ Hg Hr) in Hrun. inversion Hrun; subst.
    exists (EvRepoGetRoutes (Error e)). cbn. auto.
  - rewrite (loadRoutes_miss_repo_ok _ _ _ _ Hg Hr) in Hrun. discriminate.
Qed.

Lemma GetRouteByPath_error (path : string) (w : W) (e : error) :
  result_of (GetRouteByPath path) w = Error e ->
  e = ErrRouteNotFound \/ from_repository e (trace_of (GetRouteByPath path) w).
Proof.
  unfold result_of, trace_of.
  destruct (Get_route (route.cache s) (routeKey path) w) as [g w1] eqn:Hg.
  assert (Hcases : (exists route, g = Hit route) \/ (forall r0, g <> Hit r0)).
  { destruct g; [left; eauto | right; discriminate | right; discriminate]. }
  destruct Hcases as [(route & ->)|Hnot].
  { rewrite (GetRouteByPath_hit path w w1 route Hg). discriminate. }
  rewrite (GetRouteByPath_not_hit path w w1 g Hg Hnot).
  destruct (loadRoutes w1) as [[[routes|err] w2] t2] eqn:Hload.
  - destruct (scanRoutes routes path w2) as [[res w3] t3] eqn:Hscan.
    cbn. intros ->. left. eapply scanRoutes_error, Hscan.
  - cbn. intros [= ->]. right.
    destruct (loadRoutes_error _ _ _ _ Hload) as (ev & Hin & Hev).
    exists ev. split; [|exact Hev]. right. apply in_app_iff. now left.
Qed.

(** C2, as the code has it.  An error returned by a public operation
    is the route-not-found error, an error the repository answered with
    during the run, or, in GetRoutes and ClearCache, the error of the
    cache call on ["routes"] that opens the operation.  In that last case
    the operation stops at once: the failed cache call is the only event
    of the run, the repository is not called, and GetRoutes returns no
    list.  Every other cache fault is absorbed. *)
Theorem Service_error_origins (path method : string) (route : Route)
  (callCount totalResponseTime : Z) (w : W) :
  (forall e w1, Get_routes s.(route.cache) "routes" w = (GetErr e, w1) ->
                GetRoutes w = (Error e, w1, [EvCacheGet "routes" (GetErr e)])) /\
  (forall e, result_of GetRoutes w = Error e ->
             trace_of GetRoutes w = [EvCacheGet "routes" (GetErr e)] \/
             from_repository e (trace_of GetRoutes w)) /\
  (forall e w1, Delete s.(route.cache) "routes" w = (Some e, w1) ->
                ClearCache w = (Some e, w1, [EvCacheDelete "routes" (Some e)])) /\
  (forall e, result_of ClearCache w = Some e ->
             trace_of ClearCache w = [EvCacheDelete "routes" (Some e)] \/
             from_repository e (trace_of ClearCache w)) /\
  (forall e, result_of (GetRouteByPath path) w = Error e ->
             e = ErrRouteNotFound \/
             from_repository e (trace_of (GetRouteByPath path) w)) /\
  (forall e, (result_of (IsMethodAllowed path method) w).2 = Some e ->
             e = ErrRouteNotFound \/
             from_repository e (trace_of (IsMethodAllowed path method) w)) /\
  (forall e, result_of (AddRoute route) w = Some e ->
             from_repository e (trace_of (AddRoute route) w)) /\
  (forall e, result_of (UpdateRoute route) w = Some e ->
             from_repository e (trace_of (UpdateRoute route) w)) /\
  (forall e, result_of (DeleteRoute path) w = Some e ->
             from_repository e (trace_of (DeleteRoute path) w)) /\
  (forall e, result_of (UpdateMetrics path callCount totalResponseTime) w = Some e ->
             from_repository e
               (trace_of (UpdateMetrics path callCount totalResponseTime) w)).
Proof.
  repeat apply conj.
  - intros e w1 Hg. unfold route.GetRoutes.
    erewrite run_bind by (apply run_call, Hg). reflexivity.
  - intros e. unfold result_of, trace_of, route.GetRoutes.
    destruct (Get_routes (route.cache s) "routes" w) as [[routes| |e0] w1] eqn:Hg;
      erewrite run_bind by (apply run_call, Hg); cbn beta iota.
    + discriminate.
    + destruct (repository.GetRoutes (route.repo s) w1) as [[routes|e0] w2] eqn:Hr;
        erewrite run_bind by (apply run_call, Hr); cbn beta iota.
      * erewrite run_bind by apply run_cacheSet. discriminate.
      * cbn. intros [= ->]. right. exists (EvRepoGetRoutes (Error e)). cbn. auto.
    + cbn. intros [= ->]. now left.
  - intros e w1 Hd. unfold route.ClearCache.
    erewrite run_bind by apply run_cacheDelete. rewrite Hd. reflexivity.
  - intros e. unfold result_of, trace_of, route.ClearCache.
    erewrite run_bind by apply run_cacheDelete.
    destruct (Delete (route.cache s) "routes" w) as [[e0|] w1] eqn:Hd; cbn [fst snd].
    + cbn. intros [= ->]. now left.
    + destruct (repository.GetRoutes (route.repo s) w1) as [[routes|e0] w2] eqn:Hr;
        erewrite run_bind by (apply run_call, Hr); cbn beta iota.
      * unfold bind. destruct (clearRoutes routes w2) as [[[] w3] t3]. discriminate.
      * cbn. intros [= ->]. right. exists (EvRepoGetRoutes (Error e)). cbn. auto.
  - apply GetRouteByPath_error.
  - intros e. unfold result_of, trace_of, route.IsMethodAllowed, bind.
    pose proof (GetRouteByPath_error path w) as Hlookup.
    unfold result_of, trace_of in Hlookup.
    destruct (GetRouteByPath path w) as [[[r|e0] w1] t]; cbn; [discriminate|].
    intros [= ->]. rewrite app_nil_r. now apply Hlookup.
  - intros e. unfold result_of, trace_of, route.AddRoute.
    destruct (repository.AddRoute (route.repo s) route w) as [[e0|] w1] eqn:Ha;
      erewrite run_bind by (apply run_call, Ha); cbn beta iota.
    + cbn. intros [= ->]. exists (EvRepoAddRoute route (Some e)). cbn. auto.
    + erewrite run_bind by apply run_cacheDelete. discriminate.
  - intros e. unfold result_of, trace_of, route.UpdateRoute.
    destruct (repository.UpdateRoute (route.repo s) route w) as [[e0|] w1] eqn:Hu;
      erewrite run_bind by (apply run_call, Hu); cbn beta iota.
    + cbn. intros [= ->]. exists (EvRepoUpdateRoute route (Some e)). cbn. auto.
    + do 2 erewrite run_bind by apply run_cacheDelete. discriminate.
  - intros e. unfold result_of, trace_of, route.DeleteRoute.
    destruct (repository.DeleteRoute (route.repo s) path w) as [[e0|] w1] eqn:Hd;
      erewrite run_bind by (apply run_call, Hd); cbn beta iota.
    + cbn. intros [= ->]. exists (EvRepoDeleteRoute path (Some e)). cbn. auto.
    + do 2 erewrite run_bind by apply run_cacheDelete. discriminate.
  - intros e. unfold result_of, trace_of, route.UpdateMetrics, route.repoUpdateMetrics, call.
    destruct (repository.UpdateMetrics (route.repo s) path callCount totalResponseTime w)
      as [[e0|] w1]; cbn; [|discriminate].
    intros [= ->]. exists (EvRepoUpdateMetrics path callCount totalResponseTime (Some e)).
    cbn. auto.
Qed.

End RouteProperties.

(** * Properties of the JWT secret lookup *)

Section SecretProperties.

Import security.

Lemma nonEmpty_true (x : string) : nonEmpty x = true <-> x <> ""%string.
Proof.
  unfold nonEmpty. destruct (String.eqb_spec x ""); cbn; split; congruence.
Qed.

Lemma nonEmpty_false (x : string) : nonEmpty x = false <-> x = ""%string.
Proof.
  unfold nonEmpty. destruct (String.eqb_spec x ""); cbn; split; congruence.
Qed.

(** C9.  GetJWTSecret takes the key from the first of four sources that
    yields a non-empty value, in this order: the variable JWT_SECRET_KEY,
    the variable AG_AUTH_JWT_SECRET_KEY, the JWT secret of the
    configuration loaded from ["./config"], the fixed development key.
    A non-empty earlier source decides the result whatever the later
    ones hold. *)
Theorem GetJWTSecret_fallback_order (h : Host) :
  (Getenv h "JWT_SECRET_KEY" <> ""%string ->
   (GetJWTSecret h).1 = list_byte_of_string (Getenv h "JWT_SECRET_KEY")) /\
  (Getenv h "JWT_SECRET_KEY" = ""%string ->
   Getenv h "AG_AUTH_JWT_SECRET_KEY" <> ""%string ->
   (GetJWTSecret h).1 = list_byte_of_string (Getenv h "AG_AUTH_JWT_SECRET_KEY")) /\
  (forall cfg,
      Getenv h "JWT_SECRET_KEY" = ""%string ->
      Getenv h "AG_AUTH_JWT_SECRET_KEY" = ""%string ->
      h.(LoadConfig) "./config" = Ok cfg ->
      cfg.(config.Auth).(config.JWTSecret) <> ""%string ->
      (GetJWTSecret h).1 = list_byte_of_string cfg.(config.Auth).(config.JWTSecret)) /\
  (Getenv h "JWT_SECRET_KEY" = ""%string ->
   Getenv h "AG_AUTH_JWT_SECRET_KEY" = ""%string ->
   (forall cfg, h.(LoadConfig) "./config" = Ok cfg ->
                cfg.(config.Auth).(config.JWTSecret) = ""%string) ->
   (GetJWTSecret h).1 =
     list_byte_of_string "desenvolvimento_inseguro_nao_use_em_producao").
Proof.
  unfold GetJWTSecret. repeat apply conj.
  - intros H1. apply nonEmpty_true in H1. now rewrite H1.
  - intros H1 H2. apply nonEmpty_false in H1. apply nonEmpty_true in H2.
    now rewrite H1, H2.
  - intros cfg H1 H2 Hcfg H3.
    apply nonEmpty_false in H1, H2. apply nonEmpty_true in H3.
    now rewrite H1, H2, Hcfg, H3.
  - intros H1 H2 Hcfg. apply nonEmpty_false in H1, H2. rewrite H1, H2.
    destruct (LoadConfig h "./config") as [cfg|e]; [|reflexivity].
    specialize (Hcfg cfg eq_refl). apply nonEmpty_false in Hcfg. now rewrite Hcfg.
Qed.

End SecretProperties.

(** * Runs on concrete situations *)

Section Runs.

Import scenario.

Abbreviation GetRouteByPath := (route.GetRouteByPath mem.Match mem.Service).
Abbreviation IsMethodAllowed := (route.IsMethodAllowed mem.Match mem.Service).
Abbreviation loadRoutes := (route.loadRoutes mem.Service).

(** C1.  The repository holds a route matching ["/users/42"] and answers
    without fault.  When the read of ["routes"] misses, the lookup returns
    that route.  When the same read fails, the lookup does not call the
    repository at all: it scans an empty list and returns the
    route-not-found error. *)
Theorem GetRouteByPath_list_read_error_skips_repository :
  GetRouteByPath "/users/42" (listReadFails [users]) =
    (Error ErrRouteNotFound, listReadFails [users],
     [EvCacheGet "route:/users/42" Miss; EvCacheGet "routes" (GetErr cacheDown)]) /\
  repository.GetRoutes mem.Repository (listReadFails [users]) =
    (Ok [users], listReadFails [users]) /\
  mem.Match users.(Path) "/users/42" = true /\
  result_of (GetRouteByPath "/users/42") (fresh [users]) = Ok users.
Proof. repeat split. Qed.

(** C2 fails as stated: with a failing read of ["routes"] GetRoutes
    returns the cache error and never calls the repository, although the
    repository would have answered with the list; with a failing deletion
    of ["routes"] ClearCache returns the cache error. *)
Lemma GetRoutes_ClearCache_return_cache_errors :
  route.GetRoutes mem.Service (listReadFails [users]) =
    (Error cacheDown, listReadFails [users], [EvCacheGet "routes" (GetErr cacheDown)]) /\
  repository.GetRoutes mem.Repository (listReadFails [users]) =
    (Ok [users], listReadFails [users]) /\
  route.ClearCache mem.Service (deletesFail ["routes"%string] [users]) =
    (Some cacheDown, deletesFail ["routes"%string] [users],
     [EvCacheDelete "routes" (Some cacheDown)]) /\
  cacheDown <> ErrRouteNotFound /\
  ~ from_repository cacheDown [EvCacheGet "routes" (GetErr cacheDown)] /\
  ~ from_repository cacheDown [EvCacheDelete "routes" (Some cacheDown)].
Proof.
  repeat split; try discriminate;
    intros (ev & [<-|[]] & Hev); discriminate.
Qed.

Lemma Service_error_origins_witness :
  route.GetRoutes mem.Service (listReadFails [users]) =
    (Error cacheDown, listReadFails [users], [EvCacheGet "routes" (GetErr cacheDown)]) /\
  route.ClearCache mem.Service (deletesFail ["routes"%string] [users]) =
    (Some cacheDown, deletesFail ["routes"%string] [users],
     [EvCacheDelete "routes" (Some cacheDown)]) /\
  (dbDown = ErrRouteNotFound \/
   from_repository dbDown (trace_of (GetRouteByPath "/users/42") (repoFails [users]))) /\
  from_repository dbDown (trace_of (route.AddRoute mem.Service aB) (repoFails [users])).
Proof.
  split; [|split; [|split]].
  - apply (Service_error_origins mem.Match mem.Service "/users/42" "GET" aB 1 2
             (listReadFails [users])). reflexivity.
  - apply (Service_error_origins mem.Match mem.Service "/users/42" "GET" aB 1 2
             (deletesFail ["routes"%string] [users])). reflexivity.
  - apply (Service_error_origins mem.Match mem.Service "/users/42" "GET" aB 1 2
             (repoFails [users])). reflexivity.
  - apply (Service_error_origins mem.Match mem.Service "/users/42" "GET" aB 1 2
             (repoFails [users])). reflexivity.
Defined.

Lemma GetRouteByPath_no_match_not_found_witness :
  GetRouteByPath "/orders/7" (fresh [users; aB]) =
    (Error ErrRouteNotFound, world_of loadRoutes (fresh [users; aB]),
     EvCacheGet "route:/orders/7" Miss
       :: trace_of loadRoutes (fresh [users; aB])
       ++ [EvMatch "/users/*" "/orders/7" false; EvMatch "/a/b" "/orders/7" false]).
Proof.
  apply (GetRouteByPath_no_match_not_found mem.Match mem.Service "/orders/7"
           (fresh [users; aB]) (fresh [users; aB])
           (world_of loadRoutes (fresh [users; aB])) [users; aB]
           (trace_of loadRoutes (fresh [users; aB]))).
  - reflexivity.
  - reflexivity.
  - repeat constructor.
Defined.

Lemma GetRouteByPath_first_match_wins_witness :
  list_source mem.Service (fresh [users; aStar; aB]) [users; aStar; aB] /\
  result_of (GetRouteByPath "/a/b") (fresh [users; aStar; aB]) = Ok aStar /\
  List.filter is_match_call (trace_of (GetRouteByPath "/a/b") (fresh [users; aStar; aB])) =
    [EvMatch "/users/*" "/a/b" false; EvMatch "/a/*" "/a/b" true].
Proof.
  apply (GetRouteByPath_first_match_wins mem.Match mem.Service "/a/b"
           (fresh [users; aStar; aB]) (fresh [users; aStar; aB])
           (world_of loadRoutes (fresh [users; aStar; aB])) Miss [users; aStar; aB]
           (trace_of loadRoutes (fresh [users; aStar; aB])) [users] [aB] aStar).
  - reflexivity.
  - discriminate.
  - reflexivity.
  - reflexivity.
  - repeat constructor.
  - reflexivity.
Defined.

Lemma GetRouteByPath_match_cached_once_witness :
  (result_of (GetRouteByPath "/a/b") (writesFail ["route:/a/b"%string] [aStar; aB]) =
     Ok aStar /\
   List.filter is_individual_write
     (trace_of (GetRouteByPath "/a/b") (writesFail ["route:/a/b"%string] [aStar; aB])) =
     [EvCacheSet "route:/a/b" (VRoute aStar) 300000000000 (Some cacheDown)] /\
   300000000000 = 5 * time.Minute /\
   world_of (GetRouteByPath "/a/b") (writesFail ["route:/a/b"%string] [aStar; aB]) =
     mem.with_store (writesFail ["route:/a/b"%string] [aStar; aB])
       {[ "routes"%string := VRoutes [aStar; aB] ]} /\
   trace_of (GetRouteByPath "/a/b") (writesFail ["route:/a/b"%string] [aStar; aB]) =
     [EvCacheGet "route:/a/b" Miss; EvCacheGet "routes" Miss;
      EvRepoGetRoutes (Ok [aStar; aB]);
      EvCacheSet "routes" (VRoutes [aStar; aB]) 300000000000 None;
      EvMatch "/a/*" "/a/b" true;
      EvCacheSet "route:/a/b" (VRoute aStar) 300000000000 (Some cacheDown)]) /\
  (result_of (GetRouteByPath "/a/b") (fresh [users; aStar; aB]) = Ok aStar /\
   List.filter is_individual_write
     (trace_of (GetRouteByPath "/a/b") (fresh [users; aStar; aB])) =
     [EvCacheSet "route:/a/b" (VRoute aStar) 300000000000 None] /\
   300000000000 = 5 * time.Minute /\
   world_of (GetRouteByPath "/a/b") (fresh [users; aStar; aB]) =
     mem.with_store (fresh [users; aStar; aB])
       (<[ "route:/a/b"%string := VRoute aStar ]>
          {[ "routes"%string := VRoutes [users; aStar; aB] ]}) /\
   trace_of (GetRouteByPath "/a/b") (fresh [users; aStar; aB]) =
     [EvCacheGet "route:/a/b" Miss; EvCacheGet "routes" Miss;
      EvRepoGetRoutes (Ok [users; aStar; aB]);
      EvCacheSet "routes" (VRoutes [users; aStar; aB]) 300000000000 None;
      EvMatch "/users/*" "/a/b" false; EvMatch "/a/*" "/a/b" true;
      EvCacheSet "route:/a/b" (VRoute aStar) 300000000000 None]).
Proof.
  split.
  - apply (GetRouteByPath_match_cached_once mem.Match mem.Service "/a/b"
             (writesFail ["route:/a/b"%string] [aStar; aB])
             (writesFail ["route:/a/b"%string] [aStar; aB])
             (world_of loadRoutes (writesFail ["route:/a/b"%string] [aStar; aB]))
             Miss [aStar; aB]
             (trace_of loadRoutes (writesFail ["route:/a/b"%string] [aStar; aB]))
             [] [aB] aStar).
    + reflexivity.
    + discriminate.
    + reflexivity.
    + reflexivity.
    + constructor.
    + reflexivity.
  - apply (GetRouteByPath_match_cached_once mem.Match mem.Service "/a/b"
             (fresh [users; aStar; aB]) (fresh [users; aStar; aB])
             (world_of loadRoutes (fresh [users; aStar; aB]))
             Miss [users; aStar; aB]
             (trace_of loadRoutes (fresh [users; aStar; aB]))
             [users] [aB] aStar).
    + reflexivity.
    + discriminate.
    + reflexivity.
    + reflexivity.
    + repeat constructor.
    + reflexivity.
Defined.

Lemma GetRouteByPath_individual_hit_witness :
  GetRouteByPath "/users/42" (cached "route:/users/42" users []) =
    (Ok users, cached "route:/users/42" users [],
     [EvCacheGet "route:/users/42" (Hit (VRoute users))]) /\
  count_calls is_repo_call
    (trace_of (GetRouteByPath "/users/42") (cached "route:/users/42" users [])) = 0%nat /\
  count_calls is_match_call
    (trace_of (GetRouteByPath "/users/42") (cached "route:/users/42" users [])) = 0%nat.
Proof.
  apply (GetRouteByPath_individual_hit mem.Match mem.Service "/users/42"
           (cached "route:/users/42" users []) (cached "route:/users/42" users []) users).
  reflexivity.
Defined.

Lemma GetRouteByPath_cache_writes_witness :
  count_calls is_individual_write
    (trace_of (GetRouteByPath "/orders/7") (fresh [users; aB])) = 0%nat /\
  count_calls is_cache_write
    (trace_of (GetRouteByPath "/users/42") (cached "route:/users/42" users [])) = 0%nat.
Proof.
  split.
  - apply (proj1 (proj2 (GetRouteByPath_cache_writes mem.Match mem.Service "/orders/7"
                           (fresh [users; aB]))) ErrRouteNotFound).
    reflexivity.
  - apply (proj2 (proj2 (GetRouteByPath_cache_writes mem.Match mem.Service "/users/42"
                           (cached "route:/users/42" users []))) users
             (cached "route:/users/42" users [])).
    reflexivity.
Defined.

Lemma IsMethodAllowed_spec_witness :
  result_of (IsMethodAllowed "/users/42" "POST") (fresh [users]) = (true, None) /\
  result_of (IsMethodAllowed "/users/42" "DELETE") (fresh [users]) = (false, None) /\
  result_of (IsMethodAllowed "/orders/7" "GET") (fresh [users]) = (false, Some ErrRouteNotFound).
Proof.
  split; [|split].
  - apply (IsMethodAllowed_spec mem.Match mem.Service "/users/42" "POST" (fresh [users])).
    exists users. split; [reflexivity|]. cbn. auto.
  - apply (proj1 (proj2 (IsMethodAllowed_spec mem.Match mem.Service "/users/42" "DELETE"
                           (fresh [users]))) users).
    + reflexivity.
    + cbn. intros [H|[H|[]]]; discriminate.
  - apply (IsMethodAllowed_spec mem.Match mem.Service "/orders/7" "GET" (fresh [users])).
    reflexivity.
Defined.

Lemma UpdateRoute_DeleteRoute_invalidate_witness :
  route.UpdateRoute mem.Service users (repoFails [users]) =
    (Some dbDown, repoFails [users], [EvRepoUpdateRoute users (Some dbDown)]) /\
  route.UpdateRoute mem.Service users
    (mem.with_store (fresh [users; aB])
       (<[ "route:/users/*"%string := VRoute users ]>
          (<[ "route:/users/42"%string := VRoute users ]>
             {[ "routes"%string := VRoutes [users; aB] ]}))) =
    (None,
     mem.with_store (fresh [users; aB]) {[ "route:/users/42"%string := VRoute users ]},
     [EvRepoUpdateRoute users None;
      EvCacheDelete "route:/users/*" None;
      EvCacheDelete "routes" None]) /\
  route.DeleteRoute mem.Service "/users/*"
    (deletesFail ["route:/users/*"; "routes"]%string [users]) =
    (None, deletesFail ["route:/users/*"; "routes"]%string [],
     [EvRepoDeleteRoute "/users/*" None;
      EvCacheDelete "route:/users/*" (Some cacheDown);
      EvCacheDelete "routes" (Some cacheDown)]) /\
  route.DeleteRoute mem.Service "/nowhere" (fresh [users]) =
    (Some ErrRouteNotFound, fresh [users],
     [EvRepoDeleteRoute "/nowhere" (Some ErrRouteNotFound)]).
Proof.
  split; [|split; [|split]].
  - apply (UpdateRoute_DeleteRoute_invalidate mem.Service users "/users/*" (repoFails [users])).
    reflexivity.
  - assert (Hrepo : repository.UpdateRoute mem.Repository users
                      (mem.with_store (fresh [users; aB])
                         (<[ "route:/users/*"%string := VRoute users ]>
                            (<[ "route:/users/42"%string := VRoute users ]>
                               {[ "routes"%string := VRoutes [users; aB] ]}))) =
                    (None,
                     mem.with_store (fresh [users; aB])
                       (<[ "route:/users/*"%string := VRoute users ]>
                          (<[ "route:/users/42"%string := VRoute users ]>
                             {[ "routes"%string := VRoutes [users; aB] ]}))))
      by (vm_compute; reflexivity).
    generalize (proj1 (proj2 (UpdateRoute_DeleteRoute_invalidate mem.Service users "/users/*"
                                (mem.with_store (fresh [users; aB])
                                   (<[ "route:/users/*"%string := VRoute users ]>
                                      (<[ "route:/users/42"%string := VRoute users ]>
                                         {[ "routes"%string := VRoutes [users; aB] ]})))))
                  _ Hrepo).
    vm_compute. exact (fun H => H).
  - apply (proj2 (proj2 (proj2 (UpdateRoute_DeleteRoute_invalidate mem.Service users "/users/*"
                     (deletesFail ["route:/users/*"; "routes"]%string [users]))))
             (deletesFail ["route:/users/*"; "routes"]%string [])).
    reflexivity.
  - apply (proj1 (proj2 (proj2 (UpdateRoute_DeleteRoute_invalidate mem.Service users "/nowhere"
                     (fresh [users]))))).
    reflexivity.
Defined.

Lemma GetJWTSecret_fallback_order_witness :
  (security.GetJWTSecret
     (hostWith [("JWT_SECRET_KEY", "one"); ("AG_AUTH_JWT_SECRET_KEY", "two")]%string
        (Ok (configWith "three")))).1 = list_byte_of_string "one" /\
  (security.GetJWTSecret
     (hostWith [("AG_AUTH_JWT_SECRET_KEY", "two")]%string (Ok (configWith "three")))).1 =
    list_byte_of_string "two" /\
  (security.GetJWTSecret
     (hostWith [("JWT_SECRET_KEY", "")]%string (Ok (configWith "three")))).1 =
    list_byte_of_string "three" /\
  (security.GetJWTSecret (hostWith [] (Error (errorString "config: no file")))).1 =
    list_byte_of_string "desenvolvimento_inseguro_nao_use_em_producao".
Proof.
  split; [|split; [|split]].
  - apply (GetJWTSecret_fallback_order
             (hostWith [("JWT_SECRET_KEY", "one"); ("AG_AUTH_JWT_SECRET_KEY", "two")]%string
                (Ok (configWith "three")))).
    discriminate.
  - apply (GetJWTSecret_fallback_order
             (hostWith [("AG_AUTH_JWT_SECRET_KEY", "two")]%string (Ok (configWith "three")))).
    + reflexivity.
    + discriminate.
  - apply (proj1 (proj2 (proj2 (GetJWTSecret_fallback_order
             (hostWith [("JWT_SECRET_KEY", "")]%string (Ok (configWith "three"))))))
             (configWith "three")).
    + reflexivity.
    + reflexivity.
    + reflexivity.
    + discriminate.
  - apply (GetJWTSecret_fallback_order (hostWith [] (Error (errorString "config: no file")))).
    + reflexivity.
    + reflexivity.
    + discriminate.
Defined.

End Runs.

(** * Further properties of the route service *)

Section MoreRouteProperties.

Context {W : Type}.
Variable MatchRoutePath : string -> string -> bool.
Variable s : route.Service W.

Abbreviation GetRoutes := (route.GetRoutes s).
Abbreviation loadRoutes := (route.loadRoutes s).
Abbreviation scanRoutes := (route.scanRoutes MatchRoutePath s).
Abbreviation GetRouteByPath := (route.GetRouteByPath MatchRoutePath s).
Abbreviation ClearCache := (route.ClearCache s).
Abbreviation clearRoutes := (route.clearRoutes s).
Abbreviation AddRoute := (route.AddRoute s).
Abbreviation UpdateRoute := (route.UpdateRoute s).
Abbreviation DeleteRoute := (route.DeleteRoute s).
Abbreviation UpdateMetrics := (route.UpdateMetrics s).
Abbreviation IsMethodAllowed := (route.IsMethodAllowed MatchRoutePath s).

(** ** GetRoutes (lines 32-59) *)

(** The runs of GetRoutes, one per answer of the ports. *)
Lemma GetRoutes_runs (w : W) :
  (exists routes w1,
      Get_routes s.(route.cache) "routes" w = (Hit routes, w1) /\
      GetRoutes w = (Ok routes, w1, [EvCacheGet "routes" (Hit (VRoutes routes))])) \/
  (exists e w1,
      Get_routes s.(route.cache) "routes" w = (GetErr e, w1) /\
      GetRoutes w = (Error e, w1, [EvCacheGet "routes" (GetErr e)])) \/
  (exists w1 e w2,
      Get_routes s.(route.cache) "routes" w = (Miss, w1) /\
      repository.GetRoutes s.(route.repo) w1 = (Error e, w2) /\
      GetRoutes w = (Error e, w2, [EvCacheGet "routes" Miss; EvRepoGetRoutes (Error e)])) \/
  (exists w1 routes w2,
      Get_routes s.(route.cache) "routes" w = (Miss, w1) /\
      repository.GetRoutes s.(route.repo) w1 = (Ok routes, w2) /\
      GetRoutes w =
        (Ok routes, (Set_ s.(route.cache) "routes" (VRoutes routes) fiveMinutes w2).2,
         [EvCacheGet "routes" Miss; EvRepoGetRoutes (Ok routes);
          EvCacheSet "routes" (VRoutes routes) fiveMinutes
            (Set_ s.(route.cache) "routes" (VRoutes routes) fiveMinutes w2).1])).
Proof.
  unfold route.GetRoutes.
  destruct (Get_routes (route.cache s) "routes" w) as [[routes| |e] w1] eqn:Hg;
    erewrite run_bind by (apply run_call, Hg); cbn beta iota.
  - left. eauto.
  - destruct (repository.GetRoutes (route.repo s) w1) as [[routes|e] w2] eqn:Hr;
      erewrite run_bind by (apply run_call, Hr); cbn beta iota.
    + do 3 right. erewrite run_bind by apply run_cacheSet. eauto 8.
    + do 2 right. left. eauto 8.
  - right. left. eauto.
Qed.

(** X1.  When the cache holds the list under ["routes"], GetRoutes
    returns it after that single read: the repository is not called and
    nothing is written. *)
Theorem GetRoutes_cache_hit (w w1 : W) (routes : list Route) :
  Get_routes s.(route.cache) "routes" w = (Hit routes, w1) ->
  GetRoutes w = (Ok routes, w1, [EvCacheGet "routes" (Hit (VRoutes routes))]) /\
  count_calls is_repo_call (trace_of GetRoutes w) = 0%nat /\
  count_calls is_cache_write (trace_of GetRoutes w) = 0%nat.
Proof.
  intros Hg.
  destruct (GetRoutes_runs w)
    as [(rs & w' & Hg' & Hrun)|[(e & w' & Hg' & _)|[(w' & e & w2 & Hg' & _)
                                                  |(w' & rs & w2 & Hg' & _)]]];
    rewrite Hg in Hg'; try discriminate.
  injection Hg' as <- <-. unfold trace_of. rewrite Hrun. repeat split.
Qed.

(** X2.  On a miss GetRoutes returns the list the repository answers
    with, after writing exactly that list under ["routes"] with a time to
    live of five minutes; the answer of the cache to the write has no
    influence on the result. *)
Theorem GetRoutes_miss_repopulates (w w1 w2 : W) (routes : list Route) :
  Get_routes s.(route.cache) "routes" w = (Miss, w1) ->
  repository.GetRoutes s.(route.repo) w1 = (Ok routes, w2) ->
  result_of GetRoutes w = Ok routes /\
  trace_of GetRoutes w =
    [EvCacheGet "routes" Miss; EvRepoGetRoutes (Ok routes);
     EvCacheSet "routes" (VRoutes routes) 300000000000
       (Set_ s.(route.cache) "routes" (VRoutes routes) 300000000000 w2).1] /\
  world_of GetRoutes w = (Set_ s.(route.cache) "routes" (VRoutes routes) 300000000000 w2).2.
Proof.
  intros Hg Hr.
  destruct (GetRoutes_runs w)
    as [(rs & w' & Hg' & _)|[(e & w' & Hg' & _)|[(w' & e & w3 & Hg' & Hr' & _)
                                               |(w' & rs & w3 & Hg' & Hr' & Hrun)]]];
    rewrite Hg in Hg'; try discriminate; injection Hg' as <-;
    rewrite Hr in Hr'; try discriminate.
  injection Hr' as <- <-. unfold result_of, trace_of, world_of. rewrite Hrun. repeat split.
Qed.

(** X3.  When the repository fails after a miss, GetRoutes returns its
    error and writes nothing to the cache. *)
Theorem GetRoutes_repository_failure (w w1 w2 : W) (e : error) :
  Get_routes s.(route.cache) "routes" w = (Miss, w1) ->
  repository.GetRoutes s.(route.repo) w1 = (Error e, w2) ->
  GetRoutes w = (Error e, w2, [EvCacheGet "routes" Miss; EvRepoGetRoutes (Error e)]) /\
  count_calls is_cache_write (trace_of GetRoutes w) = 0%nat.
Proof.
  intros Hg Hr.
  destruct (GetRoutes_runs w)
    as [(rs & w' & Hg' & _)|[(e' & w' & Hg' & _)|[(w' & e' & w3 & Hg' & Hr' & Hrun)
                                                |(w' & rs & w3 & Hg' & Hr' & _)]]];
    rewrite Hg in Hg'; try discriminate; injection Hg' as <-;
    rewrite Hr in Hr'; try discriminate.
  injection Hr' as <- <-. unfold trace_of. rewrite Hrun. repeat split.
Qed.

(** X4.  A list returned by GetRoutes is the list held by the cache under
    ["routes"] or the list the repository answered with after a miss, and
    a run calls the repository at most once. *)
Theorem GetRoutes_sound (w : W) (routes : list Route) :
  result_of GetRoutes w = Ok routes ->
  list_source s w routes /\
  (count_calls is_repo_call (trace_of GetRoutes w) <= 1)%nat.
Proof.
  unfold result_of, trace_of.
  destruct (GetRoutes_runs w)
    as [(rs & w' & Hg & Hrun)|[(e & w' & Hg & Hrun)|[(w' & e & w2 & Hg & Hr & Hrun)
                                                   |(w' & rs & w2 & Hg & Hr & Hrun)]]];
    rewrite Hrun; cbn; intros [= <-]; (split; [|lia]).
  - left. eauto.
  - right. eauto.
Qed.

(** ** ClearCache (lines 177-202) and AddRoute (lines 205-216) *)

Lemma clearRoutes_run (routes : list Route) (w : W) :
  deleted_keys (trace_of (clearRoutes routes) w) =
    map (fun r => ("route:" +:+ r.(Path))%string) routes /\
  forallb is_mutation (trace_of (clearRoutes routes) w) = true /\
  count_calls is_repo_call (trace_of (clearRoutes routes) w) = 0%nat.
Proof.
  unfold trace_of, count_calls.
  revert w. induction routes as [|r rest IH]; intros w; [now cbn|].
  cbn [route.clearRoutes]. erewrite run_bind by apply run_cacheDelete.
  destruct (IH (Delete (route.cache s) ("route:" +:+ Path r) w).2) as (Hk & Hm & Hc).
  destruct (clearRoutes rest _) as [[[] w2] t2]. cbn in *.
  rewrite Hk. repeat split; assumption.
Qed.

Lemma clearRoutes_delete_run (routes : list Route) (w : W) :
  clearRoutes routes w =
    (tt,
     (delete_run s.(route.cache)
        (map (fun r => ("route:" +:+ r.(Path))%string) routes) w).1,
     (delete_run s.(route.cache)
        (map (fun r => ("route:" +:+ r.(Path))%string) routes) w).2).
Proof.
  revert w. induction routes as [|r rest IH]; intros w; [reflexivity|].
  cbn [route.clearRoutes map delete_run].
  erewrite run_bind by apply run_cacheDelete.
  destruct (Delete (route.cache s) ("route:" +:+ Path r) w) as [d w1]. cbn [fst snd].
  rewrite IH.
  now destruct (delete_run (route.cache s)
                  (map (fun r0 => ("route:" +:+ r0.(Path))%string) rest) w1).
Qed.

(** X5.  Once ["routes"] is deleted and the repository lists [routes],
    ClearCache deletes on the cache one key per listed route, ["route:"]
    followed by its registered path, in list order, each deletion acting
    on the state the previous one left; it leaves the state the last
    deletion produced and returns nil whatever the cache answers to these
    deletions; the repository is called once. *)
Theorem ClearCache_sweeps_registered_paths (w w1 w2 : W) (routes : list Route) :
  Delete s.(route.cache) "routes" w = (None, w1) ->
  repository.GetRoutes s.(route.repo) w1 = (Ok routes, w2) ->
  result_of ClearCache w = None /\
  deleted_keys (trace_of ClearCache w) =
    "routes"%string :: map (fun r => ("route:" +:+ r.(Path))%string) routes /\
  count_calls is_repo_call (trace_of ClearCache w) = 1%nat /\
  count_calls is_cache_write (trace_of ClearCache w) = 0%nat /\
  ClearCache w =
    (None,
     (delete_run s.(route.cache)
        (map (fun r => ("route:" +:+ r.(Path))%string) routes) w2).1,
     EvCacheDelete "routes" None :: EvRepoGetRoutes (Ok routes)
       :: (delete_run s.(route.cache)
             (map (fun r => ("route:" +:+ r.(Path))%string) routes) w2).2).
Proof.
  intros Hd Hr.
  assert (Hrun : ClearCache w =
            (None,
             (delete_run s.(route.cache)
                (map (fun r => ("route:" +:+ r.(Path))%string) routes) w2).1,
             EvCacheDelete "routes" None :: EvRepoGetRoutes (Ok routes)
               :: (delete_run s.(route.cache)
                     (map (fun r => ("route:" +:+ r.(Path))%string) routes) w2).2)).
  { unfold route.ClearCache.
    erewrite run_bind by apply run_cacheDelete. rewrite Hd. cbn [fst snd].
    erewrite run_bind by (apply run_call, Hr). cbn beta iota.
    unfold bind. rewrite clearRoutes_delete_run. cbn. now rewrite app_nil_r. }
  destruct (clearRoutes_run routes w2) as (Hk & Hm & Hc).
  unfold trace_of, count_calls in Hk, Hm, Hc.
  rewrite clearRoutes_delete_run in Hk, Hm, Hc. cbn [fst snd] in Hk, Hm, Hc.
  unfold result_of, trace_of. rewrite Hrun. cbn [fst snd].
  split; [reflexivity|]. split; [|split; [|split; [|reflexivity]]].
  - unfold deleted_keys in *. cbn [flat_map app]. now rewrite Hk.
  - unfold count_calls. cbn [List.filter is_repo_call length]. now rewrite Hc.
  - unfold count_calls. cbn [List.filter is_cache_write].
    rewrite (filter_none is_cache_write is_mutation _ Hm); [reflexivity|].
    now intros [].
Qed.

(** X6.  When the repository fails, ClearCache returns its error after
    having deleted ["routes"] only: no entry of a single route is
    deleted. *)
Theorem ClearCache_repository_failure (w w1 w2 : W) (e : error) :
  Delete s.(route.cache) "routes" w = (None, w1) ->
  repository.GetRoutes s.(route.repo) w1 = (Error e, w2) ->
  ClearCache w = (Some e, w2, [EvCacheDelete "routes" None; EvRepoGetRoutes (Error e)]) /\
  deleted_keys (trace_of ClearCache w) = ["routes"%string].
Proof.
  intros Hd Hr.
  assert (Hrun : ClearCache w =
                 (Some e, w2, [EvCacheDelete "routes" None; EvRepoGetRoutes (Error e)])).
  { unfold route.ClearCache.
    erewrite run_bind by apply run_cacheDelete. rewrite Hd. cbn [fst snd].
    erewrite run_bind by (apply run_call, Hr). reflexivity. }
  unfold trace_of. rewrite Hrun. now split.
Qed.

(** X7.  AddRoute: when the repository refuses the route its error is
    returned and the cache is not called; when it accepts, the only cache
    call is the deletion of ["routes"], and nil is returned whatever the
    cache answers.  No entry is created for the new route. *)
Theorem AddRoute_invalidates_list (route : Route) (w : W) :
  (forall err w1,
      repository.AddRoute s.(route.repo) route w = (Some err, w1) ->
      AddRoute route w = (Some err, w1, [EvRepoAddRoute route (Some err)])) /\
  (forall w1,
      repository.AddRoute s.(route.repo) route w = (None, w1) ->
      AddRoute route w =
        (None, (Delete s.(route.cache) "routes" w1).2,
         [EvRepoAddRoute route None;
          EvCacheDelete "routes" (Delete s.(route.cache) "routes" w1).1])).
Proof.
  split.
  - intros err w1 Ha. unfold route.AddRoute.
    erewrite run_bind by (apply run_call, Ha). reflexivity.
  - intros w1 Ha. unfold route.AddRoute.
    erewrite run_bind by (apply run_call, Ha). cbn beta iota.
    erewrite run_bind by apply run_cacheDelete. reflexivity.
Qed.

(** ** GetRouteByPath (lines 61-174) *)

Lemma individual_cases (g : GetResult Route) :
  (exists route, g = Hit route) \/ (forall r, g <> Hit r).
Proof. destruct g; [left; eauto | right; discriminate | right; discriminate]. Qed.

Lemma scanRoutes_cons (path : string) (r0 : Route) (rest : list Route) (w : W) :
  scanRoutes (r0 :: rest) path w =
  if MatchRoutePath r0.(Path) path
  then (Ok r0, (Set_ s.(route.cache) (routeKey path) (VRoute r0) fiveMinutes w).2,
        [EvMatch r0.(Path) path true;
         EvCacheSet (routeKey path) (VRoute r0) fiveMinutes
           (Set_ s.(route.cache) (routeKey path) (VRoute r0) fiveMinutes w).1])
  else (let '(res, w', t) := scanRoutes rest path w in
        (res, w', EvMatch r0.(Path) path false :: t)).
Proof.
  cbn [route.scanRoutes]. unfold bind at 1, route.matchRoutePath at 1.
  destruct (MatchRoutePath r0.(Path) path).
  - erewrite run_bind by apply run_cacheSet. reflexivity.
  - now destruct (scanRoutes rest path w) as [[res w'] t].
Qed.

Lemma scanRoutes_trace (path : string) (routes : list Route) (w : W) :
  forallb is_scan_event (trace_of (scanRoutes routes path) w) = true /\
  (count_calls is_match_call (trace_of (scanRoutes routes path) w) <= length routes)%nat.
Proof.
  unfold trace_of, count_calls.
  induction routes as [|r0 rest IH]; [cbn; split; [reflexivity|lia]|].
  rewrite scanRoutes_cons.
  destruct (MatchRoutePath r0.(Path) path).
  - cbn. split; [reflexivity|lia].
  - destruct IH as (Hk & Hc).
    destruct (scanRoutes rest path w) as [[res0 w0] t0]. cbn in *. split; [assumption|lia].
Qed.

Lemma scanRoutes_ok (path : string) (routes : list Route) (w w' : W)
  (r : Route) (t : list Event) :
  scanRoutes routes path w = (Ok r, w', t) ->
  In r routes /\ MatchRoutePath r.(Path) path = true.
Proof.
  intros Hrun.
  destruct (first_match_split MatchRoutePath path routes)
    as [Hnone|(pre & r0 & post & -> & Hpre & Hm)].
  - rewrite (scanRoutes_no_match _ _ _ _ _ Hnone) in Hrun. discriminate.
  - rewrite (scanRoutes_first_match _ _ _ _ _ _ _ Hpre Hm) in Hrun.
    injection Hrun as <- _ _. split; [|assumption].
    apply in_app_iff. right. now left.
Qed.

(** X8.  When the individual lookup does not hit, the list is missed and
    the repository fails, GetRouteByPath returns the error of the
    repository: the matcher is not called and nothing is written. *)
Theorem GetRouteByPath_repository_failure
  (path : string) (w w1 w2 w3 : W) (g : GetResult Route) (e : error) :
  Get_route s.(route.cache) ("route:" +:+ path) w = (g, w1) ->
  (forall r, g <> Hit r) ->
  Get_routes s.(route.cache) "routes" w1 = (Miss, w2) ->
  repository.GetRoutes s.(route.repo) w2 = (Error e, w3) ->
  GetRouteByPath path w =
    (Error e, w3,
     [EvCacheGet ("route:" +:+ path) (GetResult_map VRoute g);
      EvCacheGet "routes" Miss; EvRepoGetRoutes (Error e)]).
Proof.
  intros Hg Hnot Hl Hr.
  rewrite (GetRouteByPath_not_hit MatchRoutePath s path w w1 g Hg Hnot).
  rewrite (loadRoutes_miss_repo_error s _ _ _ _ Hl Hr). reflexivity.
Qed.

(** X9.  A route returned by GetRouteByPath is either the entry the
    cache holds under ["route:" + path], or a route of the list the cache
    or the repository answered with whose pattern the matcher accepts for
    the requested path. *)
Theorem GetRouteByPath_sound (path : string) (w : W) (r : Route) :
  result_of (GetRouteByPath path) w = Ok r ->
  (exists w1, Get_route s.(route.cache) ("route:" +:+ path) w = (Hit r, w1)) \/
  (MatchRoutePath r.(Path) path = true /\
   exists g w1 routes,
     Get_route s.(route.cache) ("route:" +:+ path) w = (g, w1) /\
     list_source s w1 routes /\ In r routes).
Proof.
  unfold result_of.
  destruct (Get_route (route.cache s) ("route:" +:+ path) w) as [g w1] eqn:Hg.
  destruct (individual_cases g) as [(route & ->)|Hnot].
  - rewrite (GetRouteByPath_hit MatchRoutePath s path w w1 route Hg).
    cbn. intros [= ->]. left. eauto.
  - rewrite (GetRouteByPath_not_hit MatchRoutePath s path w w1 g Hg Hnot).
    destruct (loadRoutes w1) as [[[routes|err] w2] t2] eqn:Hload; [|discriminate].
    destruct (scanRoutes routes path w2) as [[res w3] t3] eqn:Hscan.
    cbn. intros ->. right.
    destruct (scanRoutes_ok _ _ _ _ _ _ Hscan) as (Hin & Hm).
    split; [assumption|]. exists g, w1, routes. repeat split; [|assumption].
    apply (loadRoutes_source s _ _ _ _ Hload). now destruct routes.
Qed.

(** X10.  When the individual lookup does not hit and the list is
    resolved, the result of GetRouteByPath is the first route of the list
    the matcher accepts, and the route-not-found error when there is
    none. *)
Theorem GetRouteByPath_is_find
  (path : string) (w w1 w2 : W) (g : GetResult Route) (routes : list Route)
  (t : list Event) :
  Get_route s.(route.cache) ("route:" +:+ path) w = (g, w1) ->
  (forall r, g <> Hit r) ->
  loadRoutes w1 = (Ok routes, w2, t) ->
  result_of (GetRouteByPath path) w =
    match List.find (fun r => MatchRoutePath r.(Path) path) routes with
    | Some r => Ok r
    | None => Error ErrRouteNotFound
    end.
Proof.
  intros Hg Hnot Hload. unfold result_of.
  rewrite (GetRouteByPath_not_hit MatchRoutePath s path w w1 g Hg Hnot), Hload.
  assert (Hscan : forall w0, (scanRoutes routes path w0).1.1 =
                    match List.find (fun r => MatchRoutePath r.(Path) path) routes with
                    | Some r => Ok r
                    | None => Error ErrRouteNotFound
                    end).
  { clear Hload. induction routes as [|r0 rest IH]; intros w0; [reflexivity|].
    rewrite scanRoutes_cons. cbn [List.find].
    destruct (MatchRoutePath r0.(Path) path); [reflexivity|].
    specialize (IH w0). destruct (scanRoutes rest path w0) as [[res0 w'] t0]. exact IH. }
  specialize (Hscan w2). now destruct (scanRoutes routes path w2) as [[res w3] t3].
Qed.

(** ** What the operations never do *)

Lemma loadRoutes_counts (w w2 : W) (lr : result (list Route)) (t : list Event) :
  loadRoutes w = (lr, w2, t) ->
  (count_calls is_repo_call t <= 1)%nat /\
  count_calls is_cache_read t = 1%nat /\
  (count_calls is_cache_write t <= 1)%nat /\
  count_calls is_match_call t = 0%nat /\
  count_calls is_mutation t = 0%nat.
Proof.
  intros Hrun.
  destruct (loadRoutes_cases s w)
    as [(routes & w1 & Hg)|[(e & w1 & Hg)|[(w1 & e & w3 & Hg & Hr)|(w1 & routes & w3 & Hg & Hr)]]].
  - rewrite (loadRoutes_hit s _ _ _ Hg) in Hrun. inversion Hrun. cbn. lia.
  - rewrite (loadRoutes_read_error s _ _ _ Hg) in Hrun. inversion Hrun. cbn. lia.
  - rewrite (loadRoutes_miss_repo_error s _ _ _ _ Hg Hr) in Hrun. inversion Hrun. cbn. lia.
  - rewrite (loadRoutes_miss_repo_ok s _ _ _ _ Hg Hr) in Hrun. inversion Hrun. cbn. lia.
Qed.

Lemma scanRoutes_counts (path : string) (routes : list Route) (w : W) :
  count_calls is_repo_call (trace_of (scanRoutes routes path) w) = 0%nat /\
  count_calls is_cache_read (trace_of (scanRoutes routes path) w) = 0%nat /\
  (count_calls is_cache_write (trace_of (scanRoutes routes path) w) <= 1)%nat /\
  count_calls is_mutation (trace_of (scanRoutes routes path) w) = 0%nat.
Proof.
  unfold trace_of, count_calls.
  induction routes as [|r0 rest IH]; [cbn; lia|].
  rewrite scanRoutes_cons.
  destruct (MatchRoutePath r0.(Path) path); [cbn; lia|].
  destruct (scanRoutes rest path w) as [[res0 w0] t0]. cbn in *. exact IH.
Qed.

Lemma count_calls_app (kind : Event -> bool) (t1 t2 : list Event) :
  count_calls kind (t1 ++ t2) = (count_calls kind t1 + count_calls kind t2)%nat.
Proof. unfold count_calls. now rewrite List.filter_app, length_app. Qed.

(** The events of a run of GetRouteByPath, split by the step that
    emitted them. *)
Lemma GetRouteByPath_trace_split (path : string) (w : W) :
  exists g t2 t3,
    trace_of (GetRouteByPath path) w = EvCacheGet (routeKey path) g :: t2 ++ t3 /\
    ((t2 = [] /\ t3 = []) \/
     (exists w1 w2 lr, loadRoutes w1 = (lr, w2, t2) /\
        (t3 = [] \/ exists routes w3, lr = Ok routes /\
                                      t3 = trace_of (scanRoutes routes path) w3))).
Proof.
  unfold trace_of.
  destruct (Get_route (route.cache s) (routeKey path) w) as [g w1] eqn:Hg.
  destruct (individual_cases g) as [(route & ->)|Hnot].
  - rewrite (GetRouteByPath_hit MatchRoutePath s path w w1 route Hg).
    exists (Hit (VRoute route)), [], []. split; [reflexivity|]. now left.
  - rewrite (GetRouteByPath_not_hit MatchRoutePath s path w w1 g Hg Hnot).
    destruct (loadRoutes w1) as [[lr w2] t2] eqn:Hload.
    destruct lr as [routes|err].
    + destruct (scanRoutes routes path w2) as [[res w3] t3] eqn:Hscan.
      exists (GetResult_map VRoute g), t2, t3. split; [reflexivity|].
      right. exists w1, w2, (Ok routes). split; [assumption|].
      right. exists routes, w2. now rewrite Hscan.
    + exists (GetResult_map VRoute g), t2, []. split; [reflexivity|].
      right. exists w1, w2, (Error err). split; [assumption|]. now left.
Qed.

Lemma GetRouteByPath_counts (path : string) (w : W) :
  count_calls is_mutation (trace_of (GetRouteByPath path) w) = 0%nat /\
  (count_calls is_repo_call (trace_of (GetRouteByPath path) w) <= 1)%nat /\
  (count_calls is_cache_read (trace_of (GetRouteByPath path) w) <= 2)%nat /\
  (count_calls is_cache_write (trace_of (GetRouteByPath path) w) <= 2)%nat.
Proof.
  destruct (GetRouteByPath_trace_split path w) as (g & t2 & t3 & -> & Hshape).
  change (EvCacheGet (routeKey path) g :: t2 ++ t3)
    with ([EvCacheGet (routeKey path) g] ++ t2 ++ t3).
  rewrite !count_calls_app.
  destruct Hshape as [(-> & ->)|(w1 & w2 & lr & Hload & Hscan)]; [cbn; lia|].
  destruct (loadRoutes_counts _ _ _ _ Hload) as (H1 & H2 & H3 & H4 & H5).
  destruct Hscan as [->|(routes & w3 & _ & ->)].
  - cbn. unfold count_calls in *. lia.
  - destruct (scanRoutes_counts path routes w3) as (S1 & S2 & S3 & S4).
    cbn. unfold count_calls in *. lia.
Qed.

Lemma IsMethodAllowed_trace (path method : string) (w : W) :
  trace_of (IsMethodAllowed path method) w = trace_of (GetRouteByPath path) w.
Proof.
  unfold trace_of, route.IsMethodAllowed, bind.
  destruct (GetRouteByPath path w) as [[[route|e] w1] t]; cbn; apply app_nil_r.
Qed.

(** X11.  The three lookups are read-only: a run of GetRoutes,
    GetRouteByPath or IsMethodAllowed never calls a mutation of the
    repository, never deletes a cache entry, and calls the repository at
    most once. *)
Theorem lookups_are_read_only (path method : string) (w : W) :
  (count_calls is_mutation (trace_of GetRoutes w) = 0%nat /\
   (count_calls is_repo_call (trace_of GetRoutes w) <= 1)%nat) /\
  (count_calls is_mutation (trace_of (GetRouteByPath path) w) = 0%nat /\
   (count_calls is_repo_call (trace_of (GetRouteByPath path) w) <= 1)%nat) /\
  (count_calls is_mutation (trace_of (IsMethodAllowed path method) w) = 0%nat /\
   (count_calls is_repo_call (trace_of (IsMethodAllowed path method) w) <= 1)%nat).
Proof.
  split; [|split].
  - unfold trace_of.
    destruct (GetRoutes_runs w)
      as [(rs & w' & _ & Hrun)|[(e & w' & _ & Hrun)|[(w' & e & w2 & _ & _ & Hrun)
                                                   |(w' & rs & w2 & _ & _ & Hrun)]]];
      rewrite Hrun; cbn; lia.
  - destruct (GetRouteByPath_counts path w) as (H1 & H2 & _). now split.
  - rewrite IsMethodAllowed_trace.
    destruct (GetRouteByPath_counts path w) as (H1 & H2 & _). now split.
Qed.

(** X12.  The mutations never read or write the cache and never call the
    matcher: AddRoute, UpdateRoute, DeleteRoute and ClearCache only delete
    cache entries, and UpdateMetrics does not call the cache at all, its
    run being the single repository call whose answer it returns. *)
Theorem mutations_only_delete (route : Route) (path : string)
  (callCount totalResponseTime : Z) (w : W) :
  let quiet (t : list Event) :=
    count_calls is_cache_read t = 0%nat /\
    count_calls is_cache_write t = 0%nat /\
    count_calls is_match_call t = 0%nat in
  quiet (trace_of (AddRoute route) w) /\
  quiet (trace_of (UpdateRoute route) w) /\
  quiet (trace_of (DeleteRoute path) w) /\
  quiet (trace_of ClearCache w) /\
  UpdateMetrics path callCount totalResponseTime w =
    ((repository.UpdateMetrics s.(route.repo) path callCount totalResponseTime w).1,
     (repository.UpdateMetrics s.(route.repo) path callCount totalResponseTime w).2,
     [EvRepoUpdateMetrics path callCount totalResponseTime
        (repository.UpdateMetrics s.(route.repo) path callCount totalResponseTime w).1]).
Proof.
  cbv zeta. unfold trace_of. repeat apply conj.
  1-3: unfold route.AddRoute.
  4-6: unfold route.UpdateRoute.
  7-9: unfold route.DeleteRoute.
  1-3: destruct (repository.AddRoute (route.repo s) route w) as [[e|] w1] eqn:Hp;
    erewrite run_bind by (apply run_call, Hp); cbn beta iota;
    [reflexivity | erewrite run_bind by apply run_cacheDelete; reflexivity].
  1-3: destruct (repository.UpdateRoute (route.repo s) route w) as [[e|] w1] eqn:Hp;
    erewrite run_bind by (apply run_call, Hp); cbn beta iota;
    [reflexivity | do 2 erewrite run_bind by apply run_cacheDelete; reflexivity].
  1-3: destruct (repository.DeleteRoute (route.repo s) path w) as [[e|] w1] eqn:Hp;
    erewrite run_bind by (apply run_call, Hp); cbn beta iota;
    [reflexivity | do 2 erewrite run_bind by apply run_cacheDelete; reflexivity].
  1-3: unfold route.ClearCache; erewrite run_bind by apply run_cacheDelete;
    destruct (Delete (route.cache s) "routes" w) as [[e|] w1]; cbn [fst snd];
    [reflexivity|];
    destruct (repository.GetRoutes (route.repo s) w1) as [[routes|e] w2] eqn:Hr;
    erewrite run_bind by (apply run_call, Hr); cbn beta iota; [|reflexivity];
    destruct (clearRoutes_run routes w2) as (_ & Hm & _);
    unfold trace_of in Hm; unfold bind;
    destruct (clearRoutes routes w2) as [[[] w3] t3]; cbn in *;
    rewrite app_nil_r; unfold count_calls; cbn;
    rewrite (filter_none _ is_mutation t3 Hm); [reflexivity | now intros []].
  unfold route.UpdateMetrics, route.repoUpdateMetrics, call.
  now destruct (repository.UpdateMetrics (route.repo s) path callCount totalResponseTime w).
Qed.

(** X13.  A run of GetRouteByPath reads the cache at most twice, writes
    it at most twice and calls the repository at most once; when it scans
    the list [routes] it calls the matcher at most once per route. *)
Theorem GetRouteByPath_call_bounds (path : string) (w : W) :
  (count_calls is_cache_read (trace_of (GetRouteByPath path) w) <= 2)%nat /\
  (count_calls is_cache_write (trace_of (GetRouteByPath path) w) <= 2)%nat /\
  (count_calls is_repo_call (trace_of (GetRouteByPath path) w) <= 1)%nat /\
  (forall g w1 w2 routes t,
      Get_route s.(route.cache) ("route:" +:+ path) w = (g, w1) ->
      loadRoutes w1 = (Ok routes, w2, t) ->
      (count_calls is_match_call (trace_of (GetRouteByPath path) w) <= length routes)%nat).
Proof.
  destruct (GetRouteByPath_counts path w) as (_ & H2 & H3 & H4).
  repeat split; try assumption.
  intros g w1 w2 routes t Hg Hload. unfold trace_of.
  destruct (individual_cases g) as [(route & ->)|Hnot].
  - rewrite (GetRouteByPath_hit MatchRoutePath s path w w1 route Hg). cbn. lia.
  - rewrite (GetRouteByPath_not_hit MatchRoutePath s path w w1 g Hg Hnot), Hload.
    destruct (scanRoutes_trace path routes w2) as (_ & Hb). unfold trace_of in Hb.
    destruct (loadRoutes_counts _ _ _ _ Hload) as (_ & _ & _ & Hm & _).
    destruct (scanRoutes routes path w2) as [[res w3] t3]. cbn [fst snd] in *.
    change (EvCacheGet (routeKey path) (GetResult_map VRoute g) :: t ++ t3)
      with ([EvCacheGet (routeKey path) (GetResult_map VRoute g)] ++ t ++ t3).
    rewrite !count_calls_app, Hm. cbn. lia.
Qed.

(** X18.  When the individual lookup does not hit and the cache holds
    the list under ["routes"], GetRouteByPath does not call the
    repository; it writes at most the route it found and calls the
    matcher at most once per route of the cached list. *)
Theorem GetRouteByPath_cached_list
  (path : string) (w w1 w2 : W) (g : GetResult Route) (routes : list Route) :
  Get_route s.(route.cache) ("route:" +:+ path) w = (g, w1) ->
  (forall r, g <> Hit r) ->
  Get_routes s.(route.cache) "routes" w1 = (Hit routes, w2) ->
  count_calls is_repo_call (trace_of (GetRouteByPath path) w) = 0%nat /\
  (count_calls is_cache_write (trace_of (GetRouteByPath path) w) <= 1)%nat /\
  (count_calls is_match_call (trace_of (GetRouteByPath path) w) <= length routes)%nat.
Proof.
  intros Hg Hnot Hl. unfold trace_of.
  rewrite (GetRouteByPath_not_hit MatchRoutePath s path w w1 g Hg Hnot).
  rewrite (loadRoutes_hit s _ _ _ Hl).
  destruct (scanRoutes_counts path routes w2) as (S1 & _ & S3 & _).
  destruct (scanRoutes_trace path routes w2) as (_ & Hb).
  unfold trace_of, count_calls in *.
  destruct (scanRoutes routes path w2) as [[res w3] t3]. cbn in *. lia.
Qed.

(** ** How the operations compose over a lawful cache *)

Lemma routeKey_not_routes (path : string) : ("route:" +:+ path)%string <> "routes"%string.
Proof. cbn. discriminate. Qed.

(** X14.  Over a cache that serves the writes it accepted: when a lookup
    found its route by the scan and the cache accepted the write of it,
    the next lookup of the same path, started in the world the first one
    left, returns the same route from the individual cache, its run being
    that single read. *)
Theorem GetRouteByPath_second_call_hits
  (path : string) (w w' : W) (r : Route) (t : list Event) :
  serves_writes s.(route.cache) ->
  GetRouteByPath path w = (Ok r, w', t) ->
  In (EvCacheSet ("route:" +:+ path) (VRoute r) 300000000000 None) t ->
  exists w'',
    GetRouteByPath path w' =
      (Ok r, w'', [EvCacheGet ("route:" +:+ path) (Hit (VRoute r))]).
Proof.
  intros Hlaw Hrun Hin.
  assert (Hset : exists w0, Set_ s.(route.cache) ("route:" +:+ path) (VRoute r)
                              300000000000 w0 = (None, w')).
  { destruct (Get_route (route.cache s) ("route:" +:+ path) w) as [g w1] eqn:Hg.
    destruct (individual_cases g) as [(route & ->)|Hnot].
    - rewrite (GetRouteByPath_hit MatchRoutePath s path w w1 route Hg) in Hrun.
      injection Hrun as _ _ <-. destruct Hin as [?|[]]. discriminate.
    - rewrite (GetRouteByPath_not_hit MatchRoutePath s path w w1 g Hg Hnot) in Hrun.
      destruct (loadRoutes w1) as [[[routes|err] w2] t2] eqn:Hload; [|discriminate].
      destruct (first_match_split MatchRoutePath path routes)
        as [Hnone|(pre & r0 & post & -> & Hpre & Hm)].
      + rewrite (scanRoutes_no_match _ _ _ _ _ Hnone) in Hrun. discriminate.
      + rewrite (scanRoutes_first_match _ _ _ _ _ _ _ Hpre Hm) in Hrun.
        injection Hrun as -> <- <-.
        exists w2. apply injective_projections; [|reflexivity]. cbn [fst].
        destruct Hin as [?|Hin]; [discriminate|].
        apply in_app_iff in Hin as [Hin|Hin].
        { destruct (loadRoutes_writes s _ _ _ _ _ _ _ _ Hload Hin) as (_ & _ & rs & ? & _).
          discriminate. }
        apply in_app_iff in Hin as [Hin|Hin].
        { apply in_map_iff in Hin as (? & ? & _). discriminate. }
        destruct Hin as [?|[Heq|[]]]; [discriminate|].
        now injection Heq. }
  destruct Hset as (w0 & Hset).
  destruct (Hlaw _ _ _ _ _ Hset) as (w'' & Hget).
  exists w''. apply (GetRouteByPath_hit MatchRoutePath s path w' w'' r Hget).
Qed.

Lemma GetRoutes_after_delete (w0 w' : W) :
  forgets_deleted s.(route.cache) ->
  Delete s.(route.cache) "routes" w0 = (None, w') ->
  exists w1,
    Get_routes s.(route.cache) "routes" w' = (Miss, w1) /\
    result_of GetRoutes w' = (repository.GetRoutes s.(route.repo) w1).1 /\
    count_calls is_repo_call (trace_of GetRoutes w') = 1%nat.
Proof.
  intros Hlaw Hd. destruct (Hlaw _ _ _ Hd) as (w1 & Hg).
  exists w1. split; [assumption|]. unfold result_of, trace_of.
  destruct (GetRoutes_runs w')
    as [(rs & w2 & Hg' & _)|[(e & w2 & Hg' & _)|[(w2 & e & w3 & Hg' & Hr & Hrun)
                                               |(w2 & rs & w3 & Hg' & Hr & Hrun)]]];
    rewrite Hg in Hg'; try discriminate; injection Hg' as <-;
    rewrite Hrun, Hr; now cbn.
Qed.

(** X15.  Over a cache that forgets the keys whose deletion it accepted:
    after AddRoute, UpdateRoute or DeleteRoute returned nil with the
    deletion of ["routes"] accepted, GetRoutes started in the world the
    mutation left misses the cache, calls the repository once and returns
    what the repository answers. *)
Theorem GetRoutes_after_mutation_reloads
  (route : Route) (path : string) (w w' : W) (t : list Event) :
  forgets_deleted s.(route.cache) ->
  AddRoute route w = (None, w', t) \/
  UpdateRoute route w = (None, w', t) \/
  DeleteRoute path w = (None, w', t) ->
  In (EvCacheDelete "routes" None) t ->
  exists w1,
    Get_routes s.(route.cache) "routes" w' = (Miss, w1) /\
    result_of GetRoutes w' = (repository.GetRoutes s.(route.repo) w1).1 /\
    count_calls is_repo_call (trace_of GetRoutes w') = 1%nat.
Proof.
  intros Hlaw Hrun Hin.
  assert (Hd : exists w0, Delete s.(route.cache) "routes" w0 = (None, w')).
  { destruct Hrun as [Hrun|[Hrun|Hrun]].
    - unfold route.AddRoute in Hrun.
      destruct (repository.AddRoute (route.repo s) route w) as [[e|] w1] eqn:Hp;
        erewrite run_bind in Hrun by (apply run_call, Hp); cbn beta iota in Hrun;
        [discriminate|].
      erewrite run_bind in Hrun by apply run_cacheDelete.
      injection Hrun as <- <-. exists w1. apply injective_projections; [|reflexivity].
      destruct Hin as [?|[Heq|[]]]; [discriminate|]. now injection Heq.
    - unfold route.UpdateRoute in Hrun.
      destruct (repository.UpdateRoute (route.repo s) route w) as [[e|] w1] eqn:Hp;
        erewrite run_bind in Hrun by (apply run_call, Hp); cbn beta iota in Hrun;
        [discriminate|].
      do 2 erewrite run_bind in Hrun by apply run_cacheDelete.
      injection Hrun as <- <-. eexists. apply injective_projections; [|reflexivity].
      destruct Hin as [?|[Heq|[Heq|[]]]]; [discriminate| |now injection Heq].
      apply (f_equal (fun ev => match ev with
                                | EvCacheDelete key _ => key
                                | _ => ""%string
                                end)) in Heq.
      now destruct (routeKey_not_routes _ Heq).
    - unfold route.DeleteRoute in Hrun.
      destruct (repository.DeleteRoute (route.repo s) path w) as [[e|] w1] eqn:Hp;
        erewrite run_bind in Hrun by (apply run_call, Hp); cbn beta iota in Hrun;
        [discriminate|].
      do 2 erewrite run_bind in Hrun by apply run_cacheDelete.
      injection Hrun as <- <-. eexists. apply injective_projections; [|reflexivity].
      destruct Hin as [?|[Heq|[Heq|[]]]]; [discriminate| |now injection Heq].
      apply (f_equal (fun ev => match ev with
                                | EvCacheDelete key _ => key
                                | _ => ""%string
                                end)) in Heq.
      now destruct (routeKey_not_routes _ Heq). }
  destruct Hd as (w0 & Hd). exact (GetRoutes_after_delete w0 w' Hlaw Hd).
Qed.

End MoreRouteProperties.

(** * Further properties of the JWT secret lookup *)

Section MoreSecretProperties.

Import security.

Lemma bytes_of_nonEmpty (x : string) :
  nonEmpty x = true -> (0 < length (list_byte_of_string x))%nat.
Proof. destruct x; [discriminate|]. intros _. cbn. lia. Qed.

(** X16.  The key returned by GetJWTSecret is never empty. *)
Theorem GetJWTSecret_never_empty (h : Host) :
  (0 < length (GetJWTSecret h).1)%nat.
Proof.
  unfold GetJWTSecret.
  destruct (nonEmpty (Getenv h "JWT_SECRET_KEY")) eqn:H1;
    [now apply bytes_of_nonEmpty|].
  destruct (nonEmpty (Getenv h "AG_AUTH_JWT_SECRET_KEY")) eqn:H2;
    [now apply bytes_of_nonEmpty|].
  destruct (LoadConfig h "./config") as [cfg|e]; [|cbn; lia].
  destruct (nonEmpty (config.JWTSecret (config.Auth cfg))) eqn:H3;
    [now apply bytes_of_nonEmpty | cbn; lia].
Qed.

(** X17.  GetJWTSecret writes at most one line, the warning, and it
    writes it exactly when both variables are empty or unset and the
    configuration gives no non-empty secret; the key is then the
    development key. *)
Theorem GetJWTSecret_warns_iff_fallback (h : Host) :
  ((GetJWTSecret h).2 = [] \/
   ((GetJWTSecret h).2 = [fallbackWarning] /\
    (GetJWTSecret h).1 = list_byte_of_string fallbackKey)) /\
  ((GetJWTSecret h).2 = [fallbackWarning] <->
   (Getenv h "JWT_SECRET_KEY" = ""%string /\
    Getenv h "AG_AUTH_JWT_SECRET_KEY" = ""%string /\
    forall cfg, h.(LoadConfig) "./config" = Ok cfg ->
                cfg.(config.Auth).(config.JWTSecret) = ""%string)).
Proof.
  unfold GetJWTSecret.
  destruct (nonEmpty (Getenv h "JWT_SECRET_KEY")) eqn:H1.
  { apply nonEmpty_true in H1. cbn. split; [now left|].
    split; [discriminate | now intros (? & _)]. }
  destruct (nonEmpty (Getenv h "AG_AUTH_JWT_SECRET_KEY")) eqn:H2.
  { apply nonEmpty_true in H2. cbn. split; [now left|].
    split; [discriminate | now intros (_ & ? & _)]. }
  apply nonEmpty_false in H1, H2.
  destruct (LoadConfig h "./config") as [cfg|e].
  - destruct (nonEmpty (config.JWTSecret (config.Auth cfg))) eqn:H3.
    + apply nonEmpty_true in H3. cbn. split; [now left|].
      split; [discriminate|]. intros (_ & _ & Hcfg). now destruct (H3 (Hcfg cfg eq_refl)).
    + apply nonEmpty_false in H3. cbn. split; [now right|].
      split; [|reflexivity]. intros _. repeat split; try assumption.
      now intros cfg' [= <-].
  - cbn. split; [now right|]. split; [|reflexivity].
    intros _. repeat split; try assumption. discriminate.
Qed.

End MoreSecretProperties.

(** * Further runs on concrete situations *)

Section MoreRuns.

Import scenario.

Abbreviation GetRoutes := (route.GetRoutes mem.Service).
Abbreviation GetRouteByPath := (route.GetRouteByPath mem.Match mem.Service).
Abbreviation loadRoutes := (route.loadRoutes mem.Service).
Abbreviation ClearCache := (route.ClearCache mem.Service).
Abbreviation AddRoute := (route.AddRoute mem.Service).

(** The cache without faults obeys both laws. *)
Lemma reliable_serves_writes : serves_writes reliable.Cache.
Proof.
  intros key r ttl w0 w1 Hset. cbn in Hset. unfold reliable.Set_ in Hset.
  injection Hset as <-. eexists. cbn. unfold reliable.Get_route. cbn.
  now rewrite lookup_insert_eq.
Qed.

Lemma reliable_forgets_deleted : forgets_deleted reliable.Cache.
Proof.
  intros key w0 w1 Hdel. cbn in Hdel. unfold reliable.Delete in Hdel.
  injection Hdel as <-. eexists. cbn. unfold reliable.Get_routes. cbn.
  now rewrite lookup_delete_eq.
Qed.

Lemma GetRoutes_cache_hit_witness :
  GetRoutes (mem.with_store (mem.healthy []) {[ "routes"%string := VRoutes [users; aB] ]}) =
    (Ok [users; aB],
     mem.with_store (mem.healthy []) {[ "routes"%string := VRoutes [users; aB] ]},
     [EvCacheGet "routes" (Hit (VRoutes [users; aB]))]) /\
  count_calls is_repo_call
    (trace_of GetRoutes
       (mem.with_store (mem.healthy []) {[ "routes"%string := VRoutes [users; aB] ]})) = 0%nat /\
  count_calls is_cache_write
    (trace_of GetRoutes
       (mem.with_store (mem.healthy []) {[ "routes"%string := VRoutes [users; aB] ]})) = 0%nat.
Proof.
  apply (GetRoutes_cache_hit mem.Service
           (mem.with_store (mem.healthy []) {[ "routes"%string := VRoutes [users; aB] ]})
           (mem.with_store (mem.healthy []) {[ "routes"%string := VRoutes [users; aB] ]})
           [users; aB]).
  reflexivity.
Defined.

Lemma GetRoutes_miss_repopulates_witness :
  result_of GetRoutes (writesFail ["routes"%string] [users; aB]) = Ok [users; aB] /\
  trace_of GetRoutes (writesFail ["routes"%string] [users; aB]) =
    [EvCacheGet "routes" Miss; EvRepoGetRoutes (Ok [users; aB]);
     EvCacheSet "routes" (VRoutes [users; aB]) 300000000000 (Some cacheDown)] /\
  world_of GetRoutes (writesFail ["routes"%string] [users; aB]) =
    writesFail ["routes"%string] [users; aB].
Proof.
  apply (GetRoutes_miss_repopulates mem.Service
           (writesFail ["routes"%string] [users; aB])
           (writesFail ["routes"%string] [users; aB])
           (writesFail ["routes"%string] [users; aB]) [users; aB]).
  - reflexivity.
  - reflexivity.
Defined.

Lemma GetRoutes_repository_failure_witness :
  GetRoutes (repoFails [users]) =
    (Error dbDown, repoFails [users],
     [EvCacheGet "routes" Miss; EvRepoGetRoutes (Error dbDown)]) /\
  count_calls is_cache_write (trace_of GetRoutes (repoFails [users])) = 0%nat.
Proof.
  apply (GetRoutes_repository_failure mem.Service
           (repoFails [users]) (repoFails [users]) (repoFails [users]) dbDown).
  - reflexivity.
  - reflexivity.
Defined.

Lemma GetRoutes_sound_witness :
  list_source mem.Service (fresh [users; aB]) [users; aB] /\
  (count_calls is_repo_call (trace_of GetRoutes (fresh [users; aB])) <= 1)%nat.
Proof.
  apply (GetRoutes_sound mem.Service (fresh [users; aB]) [users; aB]).
  reflexivity.
Defined.

Lemma ClearCache_sweeps_registered_paths_witness :
  result_of ClearCache 
    (mem.with_store (deletesFail ["route:/users/*"%string] [users; aB])
       (<[ "route:/users/*"%string := VRoute users ]>
          (<[ "route:/a/b"%string := VRoute aB ]>
             (<[ "route:/users/42"%string := VRoute users ]>
                {[ "routes"%string := VRoutes [users; aB] ]})))) = None /\
  deleted_keys (trace_of ClearCache 
    (mem.with_store (deletesFail ["route:/users/*"%string] [users; aB])
       (<[ "route:/users/*"%string := VRoute users ]>
          (<[ "route:/a/b"%string := VRoute aB ]>
             (<[ "route:/users/42"%string := VRoute users ]>
                {[ "routes"%string := VRoutes [users; aB] ]}))))) =
    ["routes"; "route:/users/*"; "route:/a/b"]%string /\
  count_calls is_repo_call (trace_of ClearCache 
    (mem.with_store (deletesFail ["route:/users/*"%string] [users; aB])
       (<[ "route:/users/*"%string := VRoute users ]>
          (<[ "route:/a/b"%string := VRoute aB ]>
             (<[ "route:/users/42"%string := VRoute users ]>
                {[ "routes"%string := VRoutes [users; aB] ]}))))) = 1%nat /\
  count_calls is_cache_write (trace_of ClearCache 
    (mem.with_store (deletesFail ["route:/users/*"%string] [users; aB])
       (<[ "route:/users/*"%string := VRoute users ]>
          (<[ "route:/a/b"%string := VRoute aB ]>
             (<[ "route:/users/42"%string := VRoute users ]>
                {[ "routes"%string := VRoutes [users; aB] ]}))))) = 0%nat /\
  ClearCache 
    (mem.with_store (deletesFail ["route:/users/*"%string] [users; aB])
       (<[ "route:/users/*"%string := VRoute users ]>
          (<[ "route:/a/b"%string := VRoute aB ]>
             (<[ "route:/users/42"%string := VRoute users ]>
                {[ "routes"%string := VRoutes [users; aB] ]})))) =
    (None,
     mem.with_store (deletesFail ["route:/users/*"%string] [users; aB])
       (<[ "route:/users/*"%string := VRoute users ]>
          {[ "route:/users/42"%string := VRoute users ]}),
     [EvCacheDelete "routes" None; EvRepoGetRoutes (Ok [users; aB]);
      EvCacheDelete "route:/users/*" (Some cacheDown);
      EvCacheDelete "route:/a/b" None]).
Proof.
  assert (Hd : Delete (route.cache mem.Service) "routes" 
    (mem.with_store (deletesFail ["route:/users/*"%string] [users; aB])
       (<[ "route:/users/*"%string := VRoute users ]>
          (<[ "route:/a/b"%string := VRoute aB ]>
             (<[ "route:/users/42"%string := VRoute users ]>
                {[ "routes"%string := VRoutes [users; aB] ]})))) =
               (None, (Delete (route.cache mem.Service) "routes" 
    (mem.with_store (deletesFail ["route:/users/*"%string] [users; aB])
       (<[ "route:/users/*"%string := VRoute users ]>
          (<[ "route:/a/b"%string := VRoute aB ]>
             (<[ "route:/users/42"%string := VRoute users ]>
                {[ "routes"%string := VRoutes [users; aB] ]}))))).2))
    by (vm_compute; reflexivity).
  assert (Hr : repository.GetRoutes (route.repo mem.Service)
                 (Delete (route.cache mem.Service) "routes" 
    (mem.with_store (deletesFail ["route:/users/*"%string] [users; aB])
       (<[ "route:/users/*"%string := VRoute users ]>
          (<[ "route:/a/b"%string := VRoute aB ]>
             (<[ "route:/users/42"%string := VRoute users ]>
                {[ "routes"%string := VRoutes [users; aB] ]}))))).2 =
               (Ok [users; aB], (Delete (route.cache mem.Service) "routes" 
    (mem.with_store (deletesFail ["route:/users/*"%string] [users; aB])
       (<[ "route:/users/*"%string := VRoute users ]>
          (<[ "route:/a/b"%string := VRoute aB ]>
             (<[ "route:/users/42"%string := VRoute users ]>
                {[ "routes"%string := VRoutes [users; aB] ]}))))).2))
    by (vm_compute; reflexivity).
  generalize (ClearCache_sweeps_registered_paths mem.Service 
    (mem.with_store (deletesFail ["route:/users/*"%string] [users; aB])
       (<[ "route:/users/*"%string := VRoute users ]>
          (<[ "route:/a/b"%string := VRoute aB ]>
             (<[ "route:/users/42"%string := VRoute users ]>
                {[ "routes"%string := VRoutes [users; aB] ]})))) _ _ [users; aB] Hd Hr).
  vm_compute. exact (fun H => H).
Defined.

Lemma ClearCache_repository_failure_witness :
  ClearCache (repoFails [users]) =
    (Some dbDown, repoFails [users],
     [EvCacheDelete "routes" None; EvRepoGetRoutes (Error dbDown)]) /\
  deleted_keys (trace_of ClearCache (repoFails [users])) = ["routes"%string].
Proof.
  apply (ClearCache_repository_failure mem.Service
           (repoFails [users]) (repoFails [users]) (repoFails [users]) dbDown).
  - reflexivity.
  - reflexivity.
Defined.

Lemma AddRoute_invalidates_list_witness :
  AddRoute aB (repoFails [users]) =
    (Some dbDown, repoFails [users], [EvRepoAddRoute aB (Some dbDown)]) /\
  AddRoute aB (deletesFail ["routes"%string] [users]) =
    (None, deletesFail ["routes"%string] [users; aB],
     [EvRepoAddRoute aB None; EvCacheDelete "routes" (Some cacheDown)]).
Proof.
  split.
  - apply (AddRoute_invalidates_list mem.Service aB (repoFails [users])). reflexivity.
  - apply (proj2 (AddRoute_invalidates_list mem.Service aB
                    (deletesFail ["routes"%string] [users]))
             (deletesFail ["routes"%string] [users; aB])).
    reflexivity.
Defined.

Lemma GetRouteByPath_repository_failure_witness :
  GetRouteByPath "/users/42" (repoFails [users]) =
    (Error dbDown, repoFails [users],
     [EvCacheGet "route:/users/42" Miss; EvCacheGet "routes" Miss;
      EvRepoGetRoutes (Error dbDown)]).
Proof.
  apply (GetRouteByPath_repository_failure mem.Match mem.Service "/users/42"
           (repoFails [users]) (repoFails [users]) (repoFails [users]) (repoFails [users])
           Miss dbDown).
  - reflexivity.
  - discriminate.
  - reflexivity.
  - reflexivity.
Defined.

Lemma GetRouteByPath_sound_witness :
  (exists w1, mem.Get_route "route:/a/b" (fresh [users; aStar; aB]) = (Hit aStar, w1)) \/
  (mem.Match aStar.(Path) "/a/b" = true /\
   exists g w1 routes,
     mem.Get_route "route:/a/b" (fresh [users; aStar; aB]) = (g, w1) /\
     list_source mem.Service w1 routes /\ In aStar routes).
Proof.
  apply (GetRouteByPath_sound mem.Match mem.Service "/a/b" (fresh [users; aStar; aB]) aStar).
  reflexivity.
Defined.

Lemma GetRouteByPath_is_find_witness :
  result_of (GetRouteByPath "/a/b") (fresh [users; aStar; aB]) = Ok aStar /\
  result_of (GetRouteByPath "/orders/7") (fresh [users; aStar; aB]) = Error ErrRouteNotFound.
Proof.
  split.
  - apply (GetRouteByPath_is_find mem.Match mem.Service "/a/b"
             (fresh [users; aStar; aB]) (fresh [users; aStar; aB])
             (world_of loadRoutes (fresh [users; aStar; aB])) Miss [users; aStar; aB]
             (trace_of loadRoutes (fresh [users; aStar; aB]))).
    + reflexivity.
    + discriminate.
    + reflexivity.
  - apply (GetRouteByPath_is_find mem.Match mem.Service "/orders/7"
             (fresh [users; aStar; aB]) (fresh [users; aStar; aB])
             (world_of loadRoutes (fresh [users; aStar; aB])) Miss [users; aStar; aB]
             (trace_of loadRoutes (fresh [users; aStar; aB]))).
    + reflexivity.
    + discriminate.
    + reflexivity.
Defined.

Lemma GetRouteByPath_call_bounds_witness :
  (count_calls is_match_call
     (trace_of (GetRouteByPath "/a/b") (fresh [users; aStar; aB])) <= 3)%nat.
Proof.
  apply (proj2 (proj2 (proj2 (GetRouteByPath_call_bounds mem.Match mem.Service "/a/b"
                                 (fresh [users; aStar; aB]))))
           Miss (fresh [users; aStar; aB])
           (world_of loadRoutes (fresh [users; aStar; aB])) [users; aStar; aB]
           (trace_of loadRoutes (fresh [users; aStar; aB]))).
  - reflexivity.
  - reflexivity.
Defined.

Lemma GetRouteByPath_cached_list_witness :
  count_calls is_repo_call
    (trace_of (GetRouteByPath "/a/b")
       (mem.with_store (mem.healthy []) {[ "routes"%string := VRoutes [users; aB] ]})) = 0%nat /\
  (count_calls is_cache_write
     (trace_of (GetRouteByPath "/a/b")
        (mem.with_store (mem.healthy []) {[ "routes"%string := VRoutes [users; aB] ]})) <= 1)%nat /\
  (count_calls is_match_call
     (trace_of (GetRouteByPath "/a/b")
        (mem.with_store (mem.healthy []) {[ "routes"%string := VRoutes [users; aB] ]})) <= 2)%nat.
Proof.
  apply (GetRouteByPath_cached_list mem.Match mem.Service "/a/b"
           (mem.with_store (mem.healthy []) {[ "routes"%string := VRoutes [users; aB] ]})
           (mem.with_store (mem.healthy []) {[ "routes"%string := VRoutes [users; aB] ]})
           (mem.with_store (mem.healthy []) {[ "routes"%string := VRoutes [users; aB] ]})
           Miss [users; aB]).
  - reflexivity.
  - discriminate.
  - reflexivity.
Defined.

Lemma GetRouteByPath_second_call_hits_witness :
  exists w'',
    route.GetRouteByPath mem.Match reliable.Service "/users/42"
      (world_of (route.GetRouteByPath mem.Match reliable.Service "/users/42") (fresh [users])) =
      (Ok users, w'', [EvCacheGet "route:/users/42" (Hit (VRoute users))]).
Proof.
  apply (GetRouteByPath_second_call_hits mem.Match reliable.Service "/users/42"
           (fresh [users])
           (world_of (route.GetRouteByPath mem.Match reliable.Service "/users/42")
              (fresh [users]))
           users
           (trace_of (route.GetRouteByPath mem.Match reliable.Service "/users/42")
              (fresh [users]))).
  - exact reliable_serves_writes.
  - reflexivity.
  - vm_compute. do 5 right. left. reflexivity.
Defined.

Lemma GetRoutes_after_mutation_reloads_witness :
  exists w1,
    reliable.Get_routes "routes"
      (world_of (route.UpdateRoute reliable.Service aStar)
         (mem.with_store (mem.healthy [aStar; aB])
            {[ "routes"%string := VRoutes [aStar; aB] ]})) = (Miss, w1) /\
    result_of (route.GetRoutes reliable.Service)
      (world_of (route.UpdateRoute reliable.Service aStar)
         (mem.with_store (mem.healthy [aStar; aB])
            {[ "routes"%string := VRoutes [aStar; aB] ]})) =
      (mem.GetRoutes w1).1 /\
    count_calls is_repo_call
      (trace_of (route.GetRoutes reliable.Service)
         (world_of (route.UpdateRoute reliable.Service aStar)
            (mem.with_store (mem.healthy [aStar; aB])
               {[ "routes"%string := VRoutes [aStar; aB] ]}))) = 1%nat.
Proof.
  apply (GetRoutes_after_mutation_reloads reliable.Service aStar "/a/*"
           (mem.with_store (mem.healthy [aStar; aB])
              {[ "routes"%string := VRoutes [aStar; aB] ]})
           (world_of (route.UpdateRoute reliable.Service aStar)
              (mem.with_store (mem.healthy [aStar; aB])
                 {[ "routes"%string := VRoutes [aStar; aB] ]}))
           (trace_of (route.UpdateRoute reliable.Service aStar)
              (mem.with_store (mem.healthy [aStar; aB])
                 {[ "routes"%string := VRoutes [aStar; aB] ]}))).
  - exact reliable_forgets_deleted.
  - right. left. reflexivity.
  - vm_compute. do 2 right. left. reflexivity.
Defined.

Lemma GetJWTSecret_warns_iff_fallback_witness :
  (security.GetJWTSecret
     (hostWith [("JWT_SECRET_KEY", "")]%string (Ok (configWith "")))).2 =
    [security.fallbackWarning].
Proof.
  apply (GetJWTSecret_warns_iff_fallback
           (hostWith [("JWT_SECRET_KEY", "")]%string (Ok (configWith "")))).
  repeat split. now intros cfg [= <-].
Defined.

End MoreRuns.
